(** * FocusTimer: the phase/timer state machine

    A shallow embedding of the Chrome extension's background controller
    ([chrome/src/background.js]), of the popup's handlers and rendering
    ([chrome/src/popup.js]) and of the iOS view model and its screen
    ([ios/FocusTimer/FocusTimer/ContentView.swift]), with the properties
    of the specification, and further properties of the code, proved
    about them.

    Conventions.
    - Clock readings ([Date.now()]) are integers (milliseconds) and are an
      explicit argument [now] of every entry point; each entry point of
      the background script reads the clock at most once for its
      decisions (the title text of the badge, which also reads it, is
      presentation and is not modelled).
    - Handlers run to completion one at a time (section 5 of the
      specification): an [async] function is a computation in the state
      monad over [World], the part of the browser the script talks to.
    - Finite JavaScript numbers are integers: the popup rounds durations
      to whole seconds and timestamps are whole milliseconds.  The
      script computes in binary64, which is exact on integers up to
      [Number.MAX_SAFE_INTEGER]; clock readings are far below that
      bound, and a property that states as an integer a number computed
      from a duration or from a stored end takes them from that range
      ([JS.MAX_SAFE_INTEGER] below).
    - On iOS [Date] and [TimeInterval] are [Double]s; they are taken as
      rationals, and a property that states a computed instant exactly
      takes its instants from a grid on which [Double] sums and
      differences are exact. *)

From Stdlib Require Import ZArith QArith Qround Bool String List Lia Lqa.
From Stdlib Require Import DecimalString.
From ExtLib Require Import Structures.Monad Structures.MonadState.
From ExtLib Require Import Data.Monads.StateMonad.
Import ListNotations.
Import MonadNotation.

Local Open Scope string_scope.
Local Open Scope list_scope.
Local Open Scope monad_scope.
Local Open Scope Z_scope.

(** ** JavaScript values held in the records of the script *)

Module JS.

(** The values a numeric field can hold: absent ([undefined]), [null],
    or a number (NaN, an infinity, or a finite integer). *)
Inductive value : Type :=
| Undefined
| Null
| NaN
| Infinity (positive : bool)
| Num (z : Z).

(** [Number.MAX_SAFE_INTEGER], [2^53 - 1].  The numbers of the script are
    binary64 values.  Every integer up to this bound in absolute value is
    one, and on such integers [+], [-], [*] and [Math.ceil(a / k)] give
    the exact integer whenever the exact result of each step is within
    the bound too; beyond it the script's results are rounded, or
    infinite.  [Num] and the operations below are the script's on this
    range. *)
Definition MAX_SAFE_INTEGER : Z := 9007199254740991.

(** [ToNumber]: [undefined] is NaN, [null] is 0. *)
Definition toNumber (v : value) : value :=
  match v with
  | Undefined => NaN
  | Null => Num 0
  | _ => v
  end.

(** [ToBoolean], as used by [x && ...] and [!x]. *)
Definition truthy (v : value) : bool :=
  match v with
  | Num z => negb (z =? 0)
  | Infinity _ => true
  | _ => false
  end.

(** [v == null]: the field holds no value. *)
Definition nullish (v : value) : bool :=
  match v with
  | Undefined | Null => true
  | _ => false
  end.

(** [Number.isFinite] (no coercion). *)
Definition isFinite (v : value) : bool :=
  match v with
  | Num _ => true
  | _ => false
  end.

Definition add (a b : value) : value :=
  match toNumber a, toNumber b with
  | Num x, Num y => Num (x + y)
  | Infinity s, Num _ => Infinity s
  | Num _, Infinity s => Infinity s
  | Infinity s, Infinity t => if Bool.eqb s t then Infinity s else NaN
  | _, _ => NaN
  end.

Definition neg (a : value) : value :=
  match toNumber a with
  | Num x => Num (- x)
  | Infinity s => Infinity (negb s)
  | _ => NaN
  end.

Definition sub (a b : value) : value := add a (neg b).

Definition mul (a b : value) : value :=
  match toNumber a, toNumber b with
  | Num x, Num y => Num (x * y)
  | Infinity s, Num y => if y =? 0 then NaN else Infinity (Bool.eqb s (0 <? y))
  | Num x, Infinity s => if x =? 0 then NaN else Infinity (Bool.eqb s (0 <? x))
  | Infinity s, Infinity t => Infinity (Bool.eqb s t)
  | _, _ => NaN
  end.

(** [Math.ceil(a / k)] for a positive integer constant [k]. *)
Definition ceilDiv (a : value) (k : Z) : value :=
  match toNumber a with
  | Num x => Num (- ((- x) / k))
  | Infinity s => Infinity s
  | _ => NaN
  end.

(** [Math.max(a, b)]. *)
Definition max (a b : value) : value :=
  match toNumber a, toNumber b with
  | Num x, Num y => Num (Z.max x y)
  | Infinity true, (Num _ | Infinity _) => Infinity true
  | (Num _ | Infinity _), Infinity true => Infinity true
  | Infinity false, Num y => Num y
  | Num x, Infinity false => Num x
  | Infinity false, Infinity false => Infinity false
  | _, _ => NaN
  end.

(** [a < b]; every comparison with NaN is false. *)
Definition lt (a b : value) : bool :=
  match toNumber a, toNumber b with
  | Num x, Num y => x <? y
  | Num _, Infinity s => s
  | Infinity s, Num _ => negb s
  | Infinity s, Infinity t => negb s && t
  | _, _ => false
  end.

(** [a >= b]. *)
Definition ge (a b : value) : bool :=
  match toNumber a, toNumber b with
  | Num x, Num y => y <=? x
  | Num _, Infinity s => negb s
  | Infinity s, Num _ => s
  | Infinity s, Infinity t => s || negb t
  | _, _ => false
  end.

End JS.

(** ** The background script *)

Module Chrome.

Inductive Phase : Type :=
| IDLE
| RUNNING_A
| WAITING_A
| RUNNING_B.

Definition Phase_eqb (p q : Phase) : bool :=
  match p, q with
  | IDLE, IDLE | RUNNING_A, RUNNING_A
  | WAITING_A, WAITING_A | RUNNING_B, RUNNING_B => true
  | _, _ => false
  end.

Definition ALARM_ID : string := "phaseEnd".
Definition HEARTBEAT_ALARM_ID : string := "heartbeat".

Record Config : Type := mkConfig {
  durationASeconds : JS.value;
  durationBSeconds : JS.value
}.

(** The stored state object.  A field the object does not have reads as
    [undefined]: [JS.Undefined], and [None] for the flag [paused]. *)
Record TimerState : Type := mkState {
  phase : Phase;
  endTimestamp : JS.value;
  paused : option bool;
  remainingSeconds : JS.value
}.

Definition DEFAULT_CONFIG : Config :=
  {| durationASeconds := JS.Num 60; durationBSeconds := JS.Num 60 |}.

Definition DEFAULT_STATE : TimerState :=
  {| phase := IDLE; endTimestamp := JS.Null;
     paused := Some false; remainingSeconds := JS.Null |}.

(** [state.paused] in a condition. *)
Definition isPaused (s : TimerState) : bool :=
  match paused s with
  | Some b => b
  | None => false
  end.

Definition isRunning (s : TimerState) : bool :=
  Phase_eqb (phase s) RUNNING_A || Phase_eqb (phase s) RUNNING_B.

(** What the script asks of its collaborators, in the order asked: a
    refresh of the badge and title for a state, a [stateChanged] message
    to the popup, a notification (title, message, buttons). *)
Inductive Effect : Type :=
| ActionUI (s : TimerState)
| StateChanged (s : TimerState)
| Notification (title message : string) (buttons : list string).

(** The browser as the script sees it: [chrome.storage.local] under the
    keys [config] and [state], the two alarms as the script last set
    them, and the requests made so far.  Alarms fire from outside: see
    [Trigger] below. *)
Record World : Type := mkWorld {
  storedConfig : option Config;
  storedState : option TimerState;
  phaseEndAlarm : option JS.value;
  heartbeatAlarm : bool;
  effects : list Effect
}.

Definition M : Type -> Type := state World.

Definition emit (e : Effect) : M unit :=
  w <- get ;;
  put {| storedConfig := storedConfig w; storedState := storedState w;
         phaseEndAlarm := phaseEndAlarm w;
         heartbeatAlarm := heartbeatAlarm w;
         effects := effects w ++ [e] |}.

Definition setStoredConfig (c : Config) : M unit :=
  w <- get ;;
  put {| storedConfig := Some c; storedState := storedState w;
         phaseEndAlarm := phaseEndAlarm w;
         heartbeatAlarm := heartbeatAlarm w;
         effects := effects w |}.

Definition setStoredState (s : TimerState) : M unit :=
  w <- get ;;
  put {| storedConfig := storedConfig w; storedState := Some s;
         phaseEndAlarm := phaseEndAlarm w;
         heartbeatAlarm := heartbeatAlarm w;
         effects := effects w |}.

Definition getConfig : M Config :=
  w <- get ;;
  ret (match storedConfig w with
       | Some c => c
       | None => DEFAULT_CONFIG
       end).

Definition getState : M TimerState :=
  w <- get ;;
  ret (match storedState w with
       | Some s => s
       | None => DEFAULT_STATE
       end).

Definition updateActionUI (s : TimerState) : M unit :=
  emit (ActionUI s).

Definition updateState (nextState : TimerState) : M unit :=
  setStoredState nextState ;;
  updateActionUI nextState ;;
  emit (StateChanged nextState).

Definition clearAlarm : M unit :=
  w <- get ;;
  put {| storedConfig := storedConfig w; storedState := storedState w;
         phaseEndAlarm := None;
         heartbeatAlarm := heartbeatAlarm w;
         effects := effects w |}.

Definition scheduleAlarm (endTimestamp : JS.value) : M unit :=
  clearAlarm ;;
  w <- get ;;
  put {| storedConfig := storedConfig w; storedState := storedState w;
         phaseEndAlarm := Some endTimestamp;
         heartbeatAlarm := heartbeatAlarm w;
         effects := effects w |}.

Definition ensureHeartbeatAlarm : M unit :=
  w <- get ;;
  if heartbeatAlarm w then ret tt
  else put {| storedConfig := storedConfig w; storedState := storedState w;
              phaseEndAlarm := phaseEndAlarm w;
              heartbeatAlarm := true;
              effects := effects w |}.

Definition startPhase (now : Z) (p : Phase) (durationSeconds : JS.value)
  : M unit :=
  let endTimestamp :=
    JS.add (JS.Num now) (JS.mul durationSeconds (JS.Num 1000)) in
  updateState {| phase := p; endTimestamp := endTimestamp;
                 paused := Some false; remainingSeconds := JS.Null |} ;;
  scheduleAlarm endTimestamp ;;
  ensureHeartbeatAlarm.

(** [updateState({ phase, endTimestamp: null })]: the stored object has no
    [paused] and no [remainingSeconds]. *)
Definition transitionToWaiting (p : Phase) : M unit :=
  updateState {| phase := p; endTimestamp := JS.Null;
                 paused := None; remainingSeconds := JS.Undefined |}.

Definition notifyPhaseComplete (p : Phase) : M unit :=
  match p with
  | WAITING_A =>
      emit (Notification "Focus Timer complete"
              "Click Break to start Break Timer." ["OK"])
  | RUNNING_B =>
      emit (Notification "Break Timer complete" "Sequence finished." [])
  | _ => ret tt
  end.

Definition resetToIdle : M unit :=
  clearAlarm ;;
  updateState {| phase := IDLE; endTimestamp := JS.Null;
                 paused := Some false; remainingSeconds := JS.Null |}.

Definition handlePhaseCompletion : M unit :=
  s <- getState ;;
  if isPaused s then ret tt
  else
    match phase s with
    | RUNNING_A =>
        transitionToWaiting WAITING_A ;;
        notifyPhaseComplete WAITING_A
    | RUNNING_B =>
        resetToIdle ;;
        notifyPhaseComplete RUNNING_B
    | _ => ret tt
    end.

(** [handleAlarm(alarm)], by [alarm.name]. *)
Definition handleAlarm (now : Z) (name : string) : M unit :=
  if negb (String.eqb name ALARM_ID) then
    if String.eqb name HEARTBEAT_ALARM_ID then
      s <- getState ;;
      updateActionUI s ;;
      if isPaused s then ret tt
      else if isRunning s && JS.truthy (endTimestamp s)
              && JS.ge (JS.Num now) (endTimestamp s)
      then handlePhaseCompletion
      else ret tt
    else ret tt
  else
    s <- getState ;;
    if negb (isRunning s) then ret tt
    else if negb (JS.truthy (endTimestamp s)) then ret tt
    else if JS.ge (JS.Num now) (endTimestamp s) then handlePhaseCompletion
    else scheduleAlarm (endTimestamp s).

Definition startTimerA (now : Z) (config : Config) : M unit :=
  setStoredConfig config ;;
  startPhase now RUNNING_A (durationASeconds config).

Definition startTimerB (now : Z) : M unit :=
  config <- getConfig ;;
  startPhase now RUNNING_B (durationBSeconds config).

(** [chrome.notifications.onButtonClicked]. *)
Definition onButtonClicked (now : Z) (buttonIndex : Z) : M unit :=
  s <- getState ;;
  if Phase_eqb (phase s) WAITING_A && (buttonIndex =? 0)
  then startTimerB now
  else ret tt.

(** A message to the background script and the answer it sends back. *)
Record Message : Type := mkMessage {
  type : string;
  config : option Config
}.

Record Response : Type := mkResponse {
  ok : bool;
  error : option string
}.

Definition accepted : Response := {| ok := true; error := None |}.
Definition rejected (reason : string) : Response :=
  {| ok := false; error := Some reason |}.

(** The test of lines 264-270, negated: the durations are usable. *)
Definition validDurations (c : option Config) : bool :=
  match c with
  | None => false
  | Some c =>
      negb (negb (JS.isFinite (durationASeconds c))
            || negb (JS.isFinite (durationBSeconds c))
            || JS.lt (durationASeconds c) (JS.Num 1)
            || JS.lt (durationBSeconds c) (JS.Num 1))
  end.

Definition onStart (now : Z) (message : Message) : M Response :=
  s <- getState ;;
  if negb (Phase_eqb (phase s) IDLE)
  then ret (rejected "Timer already running.")
  else
    match config message with
    | Some c =>
        if validDurations (Some c)
        then startTimerA now c ;; ret accepted
        else ret (rejected "Invalid durations.")
    | None => ret (rejected "Invalid durations.")
    end.

Definition onPause (now : Z) : M Response :=
  s <- getState ;;
  if isRunning s && JS.truthy (endTimestamp s) && negb (isPaused s)
  then
    let remaining :=
      JS.max (JS.Num 1)
             (JS.ceilDiv (JS.sub (endTimestamp s) (JS.Num now)) 1000) in
    clearAlarm ;;
    updateState {| phase := phase s; endTimestamp := JS.Null;
                   paused := Some true; remainingSeconds := remaining |} ;;
    ret accepted
  else ret (rejected "Nothing to pause.").

Definition onResume (now : Z) : M Response :=
  s <- getState ;;
  if isPaused s && isRunning s && JS.truthy (remainingSeconds s)
  then
    let endTimestamp :=
      JS.add (JS.Num now) (JS.mul (remainingSeconds s) (JS.Num 1000)) in
    updateState {| phase := phase s; endTimestamp := endTimestamp;
                   paused := Some false; remainingSeconds := JS.Null |} ;;
    scheduleAlarm endTimestamp ;;
    ensureHeartbeatAlarm ;;
    ret accepted
  else ret (rejected "Nothing to resume.").

(** The [ackA] branch: [Some] answer when it returns, [None] when control
    falls through to the tests that follow it. *)
Definition onAckA (now : Z) : M (option Response) :=
  s <- getState ;;
  if Phase_eqb (phase s) WAITING_A
  then startTimerB now ;; ret (Some accepted)
  else ret None.

(** The [chrome.runtime.onMessage] listener. *)
Definition onMessage (now : Z) (message : Message) : M Response :=
  if String.eqb (type message) "start" then onStart now message
  else
    r <- (if String.eqb (type message) "ackA" then onAckA now
          else ret None) ;;
    match r with
    | Some resp => ret resp
    | None =>
        if String.eqb (type message) "pause" then onPause now
        else if String.eqb (type message) "resume" then onResume now
        else if String.eqb (type message) "cancel"
             then resetToIdle ;; ret accepted
        else ret (rejected "Invalid state.")
    end.

Definition initialize (now : Z) : M unit :=
  w <- get ;;
  match storedConfig w with
  | None => setStoredConfig DEFAULT_CONFIG
  | Some _ => ret tt
  end ;;
  ensureHeartbeatAlarm ;;
  s <- getState ;;
  updateActionUI s ;;
  if isRunning s then
    if JS.truthy (endTimestamp s) && JS.ge (JS.Num now) (endTimestamp s)
    then handlePhaseCompletion
    else if JS.truthy (endTimestamp s)
         then scheduleAlarm (endTimestamp s)
         else ret tt
  else ret tt.

(** *** Reading a world *)

(** The world of a fresh installation: nothing stored, no alarm. *)
Definition initialWorld : World :=
  {| storedConfig := None; storedState := None; phaseEndAlarm := None;
     heartbeatAlarm := false; effects := [] |}.

(** The state [getState] returns in a world. *)
Definition current (w : World) : TimerState :=
  evalState getState w.

Definition isNotification (e : Effect) : bool :=
  match e with
  | Notification _ _ _ => true
  | _ => false
  end.

(** The notification requests among the effects of a world. *)
Definition notifications (w : World) : list Effect :=
  filter isNotification (effects w).

Definition focusComplete : Effect :=
  Notification "Focus Timer complete"
    "Click Break to start Break Timer." ["OK"].

Definition breakComplete : Effect :=
  Notification "Break Timer complete" "Sequence finished." [].

(** The six phases of the specification, read off a stored state: the
    script keeps the running phase and sets the flag [paused]. *)
Inductive SpecPhase : Type :=
| Idle
| RunningFocus
| WaitingConfirm
| RunningBreak
| PausedFocus
| PausedBreak.

Definition specPhase (s : TimerState) : SpecPhase :=
  match phase s with
  | IDLE => Idle
  | WAITING_A => WaitingConfirm
  | RUNNING_A => if isPaused s then PausedFocus else RunningFocus
  | RUNNING_B => if isPaused s then PausedBreak else RunningBreak
  end.

(** The ways the controller is entered again without a user action. *)
Inductive Reentry : Type :=
| ProcessStart
| Heartbeat
| CompletionAlarm.

Definition reenter (r : Reentry) (now : Z) : M unit :=
  match r with
  | ProcessStart => initialize now
  | Heartbeat => handleAlarm now HEARTBEAT_ALARM_ID
  | CompletionAlarm => handleAlarm now ALARM_ID
  end.

(** Everything that can enter the script. *)
Inductive Trigger : Type :=
| OnMessage (now : Z) (message : Message)
| OnAlarm (now : Z) (name : string)
| OnButtonClicked (now : Z) (buttonIndex : Z)
| OnLoad (now : Z).

Definition fire (t : Trigger) (w : World) : World :=
  match t with
  | OnMessage now message => execState (onMessage now message) w
  | OnAlarm now name => execState (handleAlarm now name) w
  | OnButtonClicked now i => execState (onButtonClicked now i) w
  | OnLoad now => execState (initialize now) w
  end.

Inductive reachable : World -> Prop :=
| reachable_initial : reachable initialWorld
| reachable_fire t w : reachable w -> reachable (fire t w).

(** The invariant of section 3 on the two time fields. *)
Definition timeFieldsOk (s : TimerState) : Prop :=
  match specPhase s with
  | RunningFocus | RunningBreak =>
      JS.nullish (endTimestamp s) = false
      /\ JS.nullish (remainingSeconds s) = true
  | PausedFocus | PausedBreak =>
      JS.nullish (remainingSeconds s) = false
      /\ JS.nullish (endTimestamp s) = true
  | Idle | WaitingConfirm =>
      JS.nullish (endTimestamp s) = true
      /\ JS.nullish (remainingSeconds s) = true
  end.

End Chrome.

(** ** The popup's start button *)

Module Popup.

(** What [Number.parseFloat] returns: NaN, an infinity, or a finite
    number, taken here as a rational. *)
Inductive number : Type :=
| NaN
| Infinity (positive : bool)
| Finite (q : Q).

(** What a click on the start button does: the message it sends, if any,
    and the text it writes to the status line, if any. *)
Record Click : Type := mkClick {
  sent : option Chrome.Message;
  statusMessage : option string
}.

Section StartButton.

(** [Number.parseFloat], a built-in of the host. *)
Variable parseFloat : string -> number.

Definition clampMinutes (value : string) : option number :=
  match parseFloat value with
  | NaN => None
  | Infinity positive => if positive then Some (Infinity true) else None
  | Finite q => if Qle_bool q 0%Q then None else Some (Finite q)
  end.

(** [Math.round(minutes * 60)]: the nearest integer, halves upwards, of
    the product, taken exactly. *)
Definition minutesToSeconds (minutes : number) : JS.value :=
  match minutes with
  | NaN => JS.NaN
  | Infinity positive => JS.Infinity positive
  | Finite q => JS.Num (Qfloor (q * 60 + (1 # 2))%Q)
  end.

(** [durationAMinutes == 333]. *)
Definition is333 (minutes : number) : bool :=
  match minutes with
  | Finite q => Qeq_bool q 333%Q
  | _ => false
  end.

(** The click listener of [startBtn], given the phase of
    [currentState] and the text of the two inputs. *)
Definition onStartClick (currentPhase : Chrome.Phase)
    (timerA timerB : string) : Click :=
  match currentPhase with
  | Chrome.WAITING_A =>
      {| sent := Some {| Chrome.type := "ackA"; Chrome.config := None |};
         statusMessage := None |}
  | Chrome.IDLE =>
      match clampMinutes timerA, clampMinutes timerB with
      | Some durationAMinutes, Some durationBMinutes =>
          let config :=
            {| Chrome.durationASeconds :=
                 if is333 durationAMinutes then JS.Num 5
                 else minutesToSeconds durationAMinutes;
               Chrome.durationBSeconds :=
                 minutesToSeconds durationBMinutes |} in
          {| sent := Some {| Chrome.type := "start";
                             Chrome.config := Some config |};
             statusMessage := Some "" |}
      | _, _ =>
          {| sent := None;
             statusMessage := Some "Durations must be at least 1 minute." |}
      end
  | _ => {| sent := None; statusMessage := None |}
  end.

End StartButton.

End Popup.

(** ** The iOS view model *)

Module IOS.

Inductive Phase : Type :=
| idle
| runningFocus
| waitingForConfirm
| runningBreak
| pausedFocus
| pausedBreak.

Record Config : Type := mkConfig {
  focusMinutes : Z;
  breakMinutes : Z
}.

(** [Date] and [TimeInterval] are seconds, taken here as rationals, with
    exact sums and differences. *)
Record State : Type := mkState {
  phase : Phase;
  endDate : option Q;
  remainingSeconds : option Q
}.

Definition defaultConfig : Config :=
  {| focusMinutes := 25; breakMinutes := 5 |}.

Definition defaultState : State :=
  {| phase := idle; endDate := None; remainingSeconds := None |}.

(** A request added to the notification centre. *)
Record Request : Type := mkRequest {
  identifier : string;
  title : string;
  body : string;
  trigger : option Q
}.

(** The view model with what it persists in [UserDefaults] and the
    requests it has added to the notification centre, in order.  The
    published display string is presentation and is left out. *)
Record TimerViewModel : Type := mkModel {
  config : Config;
  state : State;
  statusMessage : string;
  savedConfig : option Config;
  savedState : option State;
  requests : list Request
}.

Definition setState (s : State) (status : string) (m : TimerViewModel)
  : TimerViewModel :=
  {| config := config m; state := s; statusMessage := status;
     savedConfig := savedConfig m; savedState := savedState m;
     requests := requests m |}.

Definition persist (m : TimerViewModel) : TimerViewModel :=
  {| config := config m; state := state m;
     statusMessage := statusMessage m;
     savedConfig := Some (config m); savedState := Some (state m);
     requests := requests m |}.

Definition addRequest (r : Request) (m : TimerViewModel) : TimerViewModel :=
  {| config := config m; state := state m;
     statusMessage := statusMessage m;
     savedConfig := savedConfig m; savedState := savedState m;
     requests := requests m ++ [r] |}.

(** [state.endDate?.timeIntervalSinceNow ?? 1]. *)
Definition intervalToEnd (now : Q) (m : TimerViewModel) : Q :=
  match endDate (state m) with
  | Some e => (e - now)%Q
  | None => 1%Q
  end.

Definition scheduleCompletionNotification (now : Q) (p : Phase)
    (m : TimerViewModel) : TimerViewModel :=
  match p with
  | runningFocus =>
      addRequest {| identifier := "focusComplete";
                    title := "Focus complete";
                    body := "Tap to start Break.";
                    trigger := Some (intervalToEnd now m) |} m
  | runningBreak =>
      addRequest {| identifier := "breakComplete";
                    title := "Break complete";
                    body := "Sequence finished.";
                    trigger := Some (intervalToEnd now m) |} m
  | waitingForConfirm =>
      addRequest {| identifier := "focusComplete";
                    title := "Focus complete";
                    body := "Start Break when ready.";
                    trigger := None |} m
  | idle =>
      addRequest {| identifier := "breakComplete";
                    title := "Break complete";
                    body := "Sequence finished.";
                    trigger := None |} m
  | _ => m
  end.

Definition start (now : Q) (m : TimerViewModel) : TimerViewModel :=
  match phase (state m) with
  | idle =>
      if (0 <? focusMinutes (config m)) && (0 <? breakMinutes (config m))
      then
        let s := {| phase := runningFocus;
                    endDate :=
                      Some (now + inject_Z (focusMinutes (config m) * 60))%Q;
                    remainingSeconds := None |} in
        scheduleCompletionNotification now runningFocus
          (persist (setState s "Focus running" m))
      else m
  | _ => m
  end.

Definition confirmStartBreak (now : Q) (m : TimerViewModel)
  : TimerViewModel :=
  match phase (state m) with
  | waitingForConfirm =>
      let s := {| phase := runningBreak;
                  endDate :=
                    Some (now + inject_Z (breakMinutes (config m) * 60))%Q;
                  remainingSeconds := None |} in
      scheduleCompletionNotification now runningBreak
        (persist (setState s "Break running" m))
  | _ => m
  end.

(** Swift's [max(x, y)]: [y] when [y >= x], else [x]. *)
Definition max (x y : Q) : Q := if Qle_bool x y then y else x.

Definition pauseOrResume (now : Q) (m : TimerViewModel) : TimerViewModel :=
  match phase (state m) with
  | runningFocus | runningBreak =>
      match endDate (state m) with
      | None => m
      | Some e =>
          let remaining := max 1%Q (e - now)%Q in
          let s := {| phase :=
                        match phase (state m) with
                        | runningFocus => pausedFocus
                        | _ => pausedBreak
                        end;
                      endDate := None;
                      remainingSeconds := Some remaining |} in
          persist (setState s "Paused" m)
      end
  | pausedFocus | pausedBreak =>
      match remainingSeconds (state m) with
      | None => m
      | Some remaining =>
          let p := match phase (state m) with
                   | pausedFocus => runningFocus
                   | _ => runningBreak
                   end in
          let s := {| phase := p;
                      endDate := Some (now + remaining)%Q;
                      remainingSeconds := None |} in
          scheduleCompletionNotification now p
            (persist
               (setState s
                  match p with
                  | runningFocus => "Focus running"
                  | _ => "Break running"
                  end m))
      end
  | _ => m
  end.

Definition cancel (m : TimerViewModel) : TimerViewModel :=
  persist (setState defaultState "Ready" m).

Definition handleCompletion (now : Q) (m : TimerViewModel)
  : TimerViewModel :=
  match phase (state m) with
  | runningFocus =>
      let s := {| phase := waitingForConfirm; endDate := None;
                  remainingSeconds := remainingSeconds (state m) |} in
      scheduleCompletionNotification now waitingForConfirm
        (persist (setState s "Focus done. Start Break?" m))
  | runningBreak =>
      scheduleCompletionNotification now idle
        (persist (setState defaultState "Break done" m))
  | _ => m
  end.

Definition resumeIfNeeded (now : Q) (m : TimerViewModel) : TimerViewModel :=
  match phase (state m) with
  | runningFocus | runningBreak =>
      match endDate (state m) with
      | Some e => if Qle_bool e now then handleCompletion now m else m
      | None => m
      end
  | _ => m
  end.

(** [tick], without the display string it also refreshes. *)
Definition tick (now : Q) (m : TimerViewModel) : TimerViewModel :=
  match phase (state m) with
  | runningFocus | runningBreak =>
      match endDate (state m) with
      | None => m
      | Some e =>
          let remaining := max 0%Q (e - now)%Q in
          if Qle_bool remaining 0%Q then handleCompletion now m else m
      end
  | _ => m
  end.

(** [init]: [loadStored] then [resumeIfNeeded]. *)
Definition init (now : Q) (storedConfig : option Config)
    (storedState : option State) : TimerViewModel :=
  let loaded :=
    {| config := match storedConfig with
                 | Some c => c
                 | None => defaultConfig
                 end;
       state := match storedState with
                | Some s => s
                | None => defaultState
                end;
       statusMessage := "Ready";
       savedConfig := storedConfig;
       savedState := storedState;
       requests := [] |} in
  resumeIfNeeded now loaded.

(** The ways the view model checks for completion by itself. *)
Inductive Reentry : Type :=
| Launch
| Tick.

Definition reenter (r : Reentry) (now : Q) (m : TimerViewModel)
  : TimerViewModel :=
  match r with
  | Launch => resumeIfNeeded now m
  | Tick => tick now m
  end.

End IOS.

(** * Vocabulary of the properties *)

Import Chrome.

(** ** States the handlers write *)

(** The seconds [pause] stores for an end [e] read at [now]:
    [Math.max(1, Math.ceil((e - now) / 1000))]. *)
Definition pausedSeconds (e now : Z) : Z :=
  Z.max 1 (- ((- (e + - now)) / 1000)).

Definition pausedState (s : TimerState) (seconds : JS.value) : TimerState :=
  {| phase := phase s; endTimestamp := JS.Null;
     paused := Some true; remainingSeconds := seconds |}.

Definition resumedState (s : TimerState) (e : JS.value) : TimerState :=
  {| phase := phase s; endTimestamp := e;
     paused := Some false; remainingSeconds := JS.Null |}.

(** What the completion check stores for a running, unpaused state, and
    the notification it requests. *)
Definition completed (s : TimerState) : TimerState :=
  match phase s with
  | RUNNING_A => {| phase := WAITING_A; endTimestamp := JS.Null;
                    paused := None; remainingSeconds := JS.Undefined |}
  | _ => DEFAULT_STATE
  end.

Definition completionNotice (s : TimerState) : Effect :=
  match phase s with
  | RUNNING_A => focusComplete
  | _ => breakComplete
  end.

(** ** Guards and rejections *)

(** The triggers that may end a pause. *)
Definition resumesOrCancels (t : Trigger) : bool :=
  match t with
  | OnMessage _ m =>
      String.eqb (type m) "resume" || String.eqb (type m) "cancel"
  | _ => false
  end.

Definition iosPaused (p : IOS.Phase) : bool :=
  match p with
  | IOS.pausedFocus | IOS.pausedBreak => true
  | _ => false
  end.

(** A duration the start request must not carry. *)
Definition nonPositiveOrNonFinite (v : JS.value) : Prop :=
  JS.isFinite v = false \/ exists z : Z, v = JS.Num z /\ z <= 0.

Definition invalidDurations (cfg : option Config) : Prop :=
  match cfg with
  | None => True
  | Some c =>
      nonPositiveOrNonFinite (durationASeconds c)
      \/ nonPositiveOrNonFinite (durationBSeconds c)
  end.

(** The guards of the transition table for pause and resume; a time field
    is present when the script finds it truthy. *)
Definition canPause (s : TimerState) : Prop :=
  (specPhase s = RunningFocus \/ specPhase s = RunningBreak)
  /\ JS.truthy (endTimestamp s) = true.

Definition canResume (s : TimerState) : Prop :=
  (specPhase s = PausedFocus \/ specPhase s = PausedBreak)
  /\ JS.truthy (remainingSeconds s) = true.

(** The rejections of the error policy: the request, the world it arrives
    in, and the reason given. *)
Inductive Rejection (w : World) : Message -> string -> Prop :=
| AlreadyRunning cfg :
    phase (current w) <> IDLE ->
    Rejection w {| type := "start"; config := cfg |} "Timer already running."
| BadDurations cfg :
    phase (current w) = IDLE ->
    invalidDurations cfg ->
    Rejection w {| type := "start"; config := cfg |} "Invalid durations."
| NothingToPause cfg :
    ~ canPause (current w) ->
    Rejection w {| type := "pause"; config := cfg |} "Nothing to pause."
| NothingToResume cfg :
    ~ canResume (current w) ->
    Rejection w {| type := "resume"; config := cfg |} "Nothing to resume.".

(** ** Sample worlds *)

(** A focus phase of 60 s started at [t = 1000] in a fresh installation;
    the same paused at [t = 31000]; the same waiting for confirmation
    after the alarm at [t = 61000]; the break that follows the
    acknowledgement at [t = 62000]. *)
Definition start6060 : Message :=
  {| type := "start";
     config := Some {| durationASeconds := JS.Num 60;
                       durationBSeconds := JS.Num 60 |} |}.

Definition say (t : string) : Message := {| type := t; config := None |}.

Definition focusWorld : World :=
  execState (onMessage 1000 start6060) initialWorld.

Definition pausedWorld : World :=
  execState (onMessage 31000 (say "pause")) focusWorld.

Definition waitingWorld : World :=
  execState (handleAlarm 61000 ALARM_ID) focusWorld.

Definition breakWorld : World :=
  execState (onMessage 62000 (say "ackA")) waitingWorld.

(** A paused state with a stale [endTimestamp] left in it. *)
Definition staleWorld : World :=
  {| storedConfig := storedConfig pausedWorld;
     storedState := Some {| phase := RUNNING_A;
                            endTimestamp := JS.Num 61000;
                            paused := Some true;
                            remainingSeconds := JS.Num 30 |};
     phaseEndAlarm := Some (JS.Num 61000);
     heartbeatAlarm := true;
     effects := [] |}.

(** The view model 30 s into a focus phase, paused. *)
Definition iosPausedModel : IOS.TimerViewModel :=
  IOS.pauseOrResume 30 (IOS.start 0 (IOS.init 0 None None)).

(** A stand-in for [Number.parseFloat] on two inputs. *)
Definition parseSample (value : string) : Popup.number :=
  if String.eqb value "333" then Popup.Finite 333
  else if String.eqb value "25" then Popup.Finite 25
  else Popup.NaN.

(** * More of the code: vocabulary *)

(** ** Runs of the background script *)

(** The clock reading a trigger carries. *)
Definition clockOf (t : Trigger) : Z :=
  match t with
  | OnMessage now _ => now
  | OnAlarm now _ => now
  | OnButtonClicked now _ => now
  | OnLoad now => now
  end.

(** The worlds reached from a fresh installation when every clock reading
    is at or after the epoch, as [Date.now()] is. *)
Inductive reachableAfterEpoch : World -> Prop :=
| afterEpoch_initial : reachableAfterEpoch initialWorld
| afterEpoch_fire t w :
    reachableAfterEpoch w -> 0 <= clockOf t ->
    reachableAfterEpoch (fire t w).

(** A configuration the start request lets through. *)
Definition validConfig (c : Config) : Prop :=
  exists a b : Z,
    c = {| durationASeconds := JS.Num a; durationBSeconds := JS.Num b |}
    /\ 1 <= a /\ 1 <= b.

(** The stored values are numbers in range: a stored configuration is
    valid, a running phase ends at a finite time at least one second after
    the epoch, a paused phase has a whole number of seconds, at least
    one, left. *)
Definition numbersOk (w : World) : Prop :=
  (forall c : Config, storedConfig w = Some c -> validConfig c)
  /\ match specPhase (current w) with
     | RunningFocus | RunningBreak =>
         exists e : Z,
           endTimestamp (current w) = JS.Num e /\ 1000 <= e
           /\ remainingSeconds (current w) = JS.Null
     | PausedFocus | PausedBreak =>
         exists r : Z,
           remainingSeconds (current w) = JS.Num r /\ 1 <= r
           /\ endTimestamp (current w) = JS.Null
     | Idle | WaitingConfirm => True
     end.

(** The alarms the script has asked for fit the phase: while a phase runs
    the completion alarm is set for its end and the heartbeat is on; in
    Idle and while paused no completion alarm is set. *)
Definition alarmsOk (w : World) : Prop :=
  match specPhase (current w) with
  | RunningFocus | RunningBreak =>
      phaseEndAlarm w = Some (endTimestamp (current w))
      /\ heartbeatAlarm w = true
  | PausedFocus | PausedBreak | Idle => phaseEndAlarm w = None
  | WaitingConfirm => True
  end.

(** Triggers fired one after the other. *)
Definition run (ts : list Trigger) (w : World) : World :=
  fold_left (fun w t => fire t w) ts w.

(** No trigger of the run leaves the world in phase Idle. *)
Fixpoint busy (ts : list Trigger) (w : World) : Prop :=
  match ts with
  | [] => True
  | t :: ts => phase (current (fire t w)) <> IDLE /\ busy ts (fire t w)
  end.

(** The state [startPhase] stores. *)
Definition runningState (p : Phase) (e : JS.value) : TimerState :=
  {| phase := p; endTimestamp := e;
     paused := Some false; remainingSeconds := JS.Null |}.

Definition startWith (dFocus dBreak : Z) : Message :=
  {| type := "start";
     config := Some {| durationASeconds := JS.Num dFocus;
                       durationBSeconds := JS.Num dBreak |} |}.

(** ** The transitions of the background script *)

(** What one entry of the script at time [now] can do to a world [w],
    read off the handlers: the stored state, the stored configuration,
    the two alarms and the notifications of the world [w'] it leaves.
    The numbers stored are given by the script's own tests and
    expressions.  The kinds overlap where two handlers leave the same
    world: a cancel in a stored default state changes nothing. *)
Inductive Step (now : Z) (w w' : World) : Prop :=
| Unchanged :
    storedState w' = storedState w ->
    (storedConfig w' = storedConfig w
     \/ storedConfig w = None /\ storedConfig w' = Some DEFAULT_CONFIG) ->
    (phaseEndAlarm w' = phaseEndAlarm w
     \/ isRunning (current w) = true
        /\ JS.truthy (endTimestamp (current w)) = true
        /\ JS.ge (JS.Num now) (endTimestamp (current w)) = false
        /\ phaseEndAlarm w' = Some (endTimestamp (current w))) ->
    (heartbeatAlarm w = true -> heartbeatAlarm w' = true) ->
    notifications w' = notifications w ->
    Step now w w'
| Started (c : Config) (e : JS.value) :
    storedConfig w' = Some c ->
    validDurations (Some c) = true ->
    phase (current w) = IDLE ->
    e = JS.add (JS.Num now) (JS.mul (durationASeconds c) (JS.Num 1000)) ->
    storedState w'
    = Some {| phase := RUNNING_A; endTimestamp := e;
              paused := Some false; remainingSeconds := JS.Null |} ->
    phaseEndAlarm w' = Some e ->
    heartbeatAlarm w' = true ->
    notifications w' = notifications w ->
    Step now w w'
| Acknowledged (e : JS.value) :
    phase (current w) = WAITING_A ->
    e = JS.add (JS.Num now)
          (JS.mul (durationBSeconds (evalState getConfig w)) (JS.Num 1000)) ->
    storedConfig w' = storedConfig w ->
    storedState w'
    = Some {| phase := RUNNING_B; endTimestamp := e;
              paused := Some false; remainingSeconds := JS.Null |} ->
    phaseEndAlarm w' = Some e ->
    heartbeatAlarm w' = true ->
    notifications w' = notifications w ->
    Step now w w'
| Paused :
    isRunning (current w) = true ->
    isPaused (current w) = false ->
    JS.truthy (endTimestamp (current w)) = true ->
    storedConfig w' = storedConfig w ->
    storedState w'
    = Some (pausedState (current w)
              (JS.max (JS.Num 1)
                 (JS.ceilDiv
                    (JS.sub (endTimestamp (current w)) (JS.Num now)) 1000))) ->
    phaseEndAlarm w' = None ->
    heartbeatAlarm w' = heartbeatAlarm w ->
    notifications w' = notifications w ->
    Step now w w'
| Resumed (e : JS.value) :
    isRunning (current w) = true ->
    isPaused (current w) = true ->
    JS.truthy (remainingSeconds (current w)) = true ->
    e = JS.add (JS.Num now)
          (JS.mul (remainingSeconds (current w)) (JS.Num 1000)) ->
    storedConfig w' = storedConfig w ->
    storedState w' = Some (resumedState (current w) e) ->
    phaseEndAlarm w' = Some e ->
    heartbeatAlarm w' = true ->
    notifications w' = notifications w ->
    Step now w w'
| Cancelled :
    storedConfig w' = storedConfig w ->
    storedState w' = Some DEFAULT_STATE ->
    phaseEndAlarm w' = None ->
    heartbeatAlarm w' = heartbeatAlarm w ->
    notifications w' = notifications w ->
    Step now w w'
| Completed :
    isRunning (current w) = true ->
    isPaused (current w) = false ->
    JS.truthy (endTimestamp (current w)) = true ->
    JS.ge (JS.Num now) (endTimestamp (current w)) = true ->
    (storedConfig w' = storedConfig w
     \/ storedConfig w = None /\ storedConfig w' = Some DEFAULT_CONFIG) ->
    storedState w' = Some (completed (current w)) ->
    phaseEndAlarm w'
    = match phase (current w) with
      | RUNNING_A => phaseEndAlarm w
      | _ => None
      end ->
    (heartbeatAlarm w = true -> heartbeatAlarm w' = true) ->
    notifications w' = notifications w ++ [completionNotice (current w)] ->
    Step now w w'.

(** ** More JavaScript arithmetic and text *)

Module JSText.

(** [Math.floor(a / k)] for a positive integer constant [k]. *)
Definition floorDiv (a : JS.value) (k : Z) : JS.value :=
  match JS.toNumber a with
  | JS.Num x => JS.Num (x / k)
  | JS.Infinity s => JS.Infinity s
  | _ => JS.NaN
  end.

(** [a % k]: the remainder has the sign of [a]. *)
Definition rem (a : JS.value) (k : Z) : JS.value :=
  match JS.toNumber a with
  | JS.Num x => JS.Num (Z.rem x k)
  | _ => JS.NaN
  end.

(** [Math.ceil(a)]. *)
Definition ceil (a : JS.value) : JS.value := JS.toNumber a.

(** [Math.round(a / k)] for a positive integer constant [k]: the nearest
    integer, halves upwards; the script's result for [a] within
    [JS.MAX_SAFE_INTEGER]. *)
Definition roundDiv (a : JS.value) (k : Z) : JS.value :=
  match JS.toNumber a with
  | JS.Num x => JS.Num ((2 * x + k) / (2 * k))
  | JS.Infinity s => JS.Infinity s
  | _ => JS.NaN
  end.

(** [String(v)]; an integer is written with all its digits, as the
    script writes those below [10^21]. *)
Definition toString (v : JS.value) : string :=
  match v with
  | JS.Undefined => "undefined"
  | JS.Null => "null"
  | JS.NaN => "NaN"
  | JS.Infinity true => "Infinity"
  | JS.Infinity false => "-Infinity"
  | JS.Num z => NilZero.string_of_int (Z.to_int z)
  end.

(** [s.padStart(2, "0")]. *)
Definition padStart2 (s : string) : string :=
  match String.length s with
  | O => "00"
  | S O => String.append "0" s
  | _ => s
  end.

End JSText.

(** ** The popup's view *)

Module PopupView.

Definition formatSeconds (totalSeconds : JS.value) : string :=
  let minutes := JSText.floorDiv totalSeconds 60 in
  let seconds := JSText.rem totalSeconds 60 in
  String.append (JSText.padStart2 (JSText.toString minutes))
    (String.append ":" (JSText.padStart2 (JSText.toString seconds))).

Definition secondsToMinutes (seconds : JS.value) : JS.value :=
  JS.max (JS.Num 1) (JSText.roundDiv seconds 60).

(** The text [updateCountdown(state)] writes to [statusTime] at [now]. *)
Definition updateCountdown (now : Z) (s : TimerState) : string :=
  if isPaused s && JS.truthy (remainingSeconds s)
  then formatSeconds
         (JS.max (JS.Num 0) (JSText.ceil (remainingSeconds s)))
  else if JS.truthy (endTimestamp s)
  then formatSeconds
         (JS.max (JS.Num 0)
            (JS.ceilDiv (JS.sub (endTimestamp s) (JS.Num now)) 1000))
  else "--:--".

(** The elements of the popup the script writes, the interval it keeps
    ([ticking] when [tickInterval] is set) and [currentState]. *)
Record View : Type := mkView {
  statusLabel : string;
  statusTime : string;
  statusMessage : string;
  timerAValue : JS.value;
  timerBValue : JS.value;
  timerADisabled : bool;
  timerBDisabled : bool;
  startText : string;
  startHidden : bool;
  startDisabled : bool;
  pauseHidden : bool;
  pauseText : string;
  ticking : bool;
  currentState : TimerState
}.

(** The label and the message of a running phase. *)
Definition runningLabel (s : TimerState) : string :=
  match phase s with
  | RUNNING_A => if isPaused s then "Focus paused" else "Focus Timer running"
  | _ => if isPaused s then "Break paused" else "Break Timer running"
  end.

Definition runningMessage (s : TimerState) : string :=
  match phase s with
  | RUNNING_A =>
      if isPaused s then "Resume to continue Focus."
      else "Break Timer will wait for confirmation."
  | _ =>
      if isPaused s then "Resume to continue Break."
      else "Waiting for completion."
  end.

(** [render(state, config)] at [now], on the view as it was. *)
Definition render (now : Z) (s : TimerState) (c : Config) (v : View) : View :=
  match phase s with
  | IDLE =>
      {| statusLabel := "Ready";
         statusTime := "--:--";
         statusMessage := "Set durations and press Start.";
         timerAValue := secondsToMinutes (durationASeconds c);
         timerBValue := secondsToMinutes (durationBSeconds c);
         timerADisabled := false;
         timerBDisabled := false;
         startText := "Start";
         startHidden := false;
         startDisabled := false;
         pauseHidden := true;
         pauseText := pauseText v;
         ticking := false;
         currentState := s |}
  | WAITING_A =>
      {| statusLabel := "Focus Timer complete";
         statusTime := "00:00";
         statusMessage := "Press Start Break to begin.";
         timerAValue := secondsToMinutes (durationASeconds c);
         timerBValue := secondsToMinutes (durationBSeconds c);
         timerADisabled := true;
         timerBDisabled := true;
         startText := "Start Break";
         startHidden := false;
         startDisabled := false;
         pauseHidden := true;
         pauseText := pauseText v;
         ticking := false;
         currentState := s |}
  | _ =>
      {| statusLabel := runningLabel s;
         statusTime := updateCountdown now s;
         statusMessage := runningMessage s;
         timerAValue := secondsToMinutes (durationASeconds c);
         timerBValue := secondsToMinutes (durationBSeconds c);
         timerADisabled := true;
         timerBDisabled := true;
         startText := "Start Focus";
         startHidden := true;
         startDisabled := true;
         pauseHidden := false;
         pauseText := if isPaused s then "▶" else "||";
         ticking := negb (isPaused s);
         currentState := s |}
  end.

(** [loadAndRender()]: the stored state and configuration, with the
    defaults for what is not stored. *)
Definition loadAndRender (now : Z) (w : World) (v : View) : View :=
  render now (current w) (evalState getConfig w) v.

(** The interval of [startTick] firing at [now]. *)
Definition tick (now : Z) (v : View) : View :=
  if ticking v then
    {| statusLabel := statusLabel v;
       statusTime := updateCountdown now (currentState v);
       statusMessage := statusMessage v;
       timerAValue := timerAValue v;
       timerBValue := timerBValue v;
       timerADisabled := timerADisabled v;
       timerBDisabled := timerBDisabled v;
       startText := startText v;
       startHidden := startHidden v;
       startDisabled := startDisabled v;
       pauseHidden := pauseHidden v;
       pauseText := pauseText v;
       ticking := ticking v;
       currentState := currentState v |}
  else v.

(** The message a click on the pause button sends. *)
Definition onPauseClick (v : View) : Message :=
  {| type := if isPaused (currentState v) then "resume" else "pause";
     config := None |}.

(** The message a click on the cancel button sends. *)
Definition onCancelClick : Message :=
  {| type := "cancel"; config := None |}.

End PopupView.

(** A view before the first rendering. *)
Definition blankView : PopupView.View :=
  {| PopupView.statusLabel := ""; PopupView.statusTime := "";
     PopupView.statusMessage := "";
     PopupView.timerAValue := JS.Undefined;
     PopupView.timerBValue := JS.Undefined;
     PopupView.timerADisabled := false; PopupView.timerBDisabled := false;
     PopupView.startText := ""; PopupView.startHidden := false;
     PopupView.startDisabled := false; PopupView.pauseHidden := false;
     PopupView.pauseText := ""; PopupView.ticking := false;
     PopupView.currentState := DEFAULT_STATE |}.

(** A stand-in for [Number.parseFloat] on a few inputs. *)
Definition parseMore (value : string) : Popup.number :=
  if String.eqb value "333" then Popup.Finite 333
  else if String.eqb value "25" then Popup.Finite 25
  else if String.eqb value "0.5" then Popup.Finite (1 # 2)
  else if String.eqb value "0.0078125" then Popup.Finite (1 # 128)
  else Popup.NaN.

(** A number with a short binary expansion, [m / 2^j] with [|m| < 2^49].
    It is a binary64 value, and so is sixty times it: on such minutes the
    product of [minutesToSeconds] is exact. *)
Definition shortBinary (q : Q) : Prop :=
  exists (m : Z) (j : nat),
    Z.abs m < 2 ^ 49 /\ (j <= 1000)%nat /\ (q == m # Pos.shiftl_nat 1 j)%Q.

(** ** The iOS screen *)

Module IOSApp.

(** [buttonDisabled] of [ContentView]: the main button. *)
Definition buttonDisabled (p : IOS.Phase) : bool :=
  match p with
  | IOS.idle => false
  | IOS.waitingForConfirm => false
  | _ => true
  end.

(** The [.disabled] condition of the pause button. *)
Definition pauseDisabled (p : IOS.Phase) : bool :=
  match p with
  | IOS.idle | IOS.waitingForConfirm => true
  | _ => false
  end.

(** The action of the main button. *)
Definition mainButton (now : Q) (m : IOS.TimerViewModel)
  : IOS.TimerViewModel :=
  match IOS.phase (IOS.state m) with
  | IOS.waitingForConfirm => IOS.confirmStartBreak now m
  | _ => IOS.start now m
  end.

Definition setConfig (c : IOS.Config) (m : IOS.TimerViewModel)
  : IOS.TimerViewModel :=
  {| IOS.config := c; IOS.state := IOS.state m;
     IOS.statusMessage := IOS.statusMessage m;
     IOS.savedConfig := IOS.savedConfig m;
     IOS.savedState := IOS.savedState m;
     IOS.requests := IOS.requests m |}.

(** A stepper with range [lo...hi] and step 1, pressed up or down. *)
Definition stepped (lo hi : Z) (up : bool) (value : Z) : Z :=
  if up then (if value <? hi then value + 1 else value)
  else (if lo <? value then value - 1 else value).

(** What can happen to the view model: a tap on an enabled button, a
    press on a stepper, a tick of the timer, the app closed and opened
    again. *)
Inductive Event : Type :=
| TapMain (now : Q)
| TapPause (now : Q)
| TapCancel
| Timer (now : Q)
| StepFocus (up : bool)
| StepBreak (up : bool)
| Relaunch (now : Q).

Definition handle (ev : Event) (m : IOS.TimerViewModel)
  : IOS.TimerViewModel :=
  match ev with
  | TapMain now =>
      if buttonDisabled (IOS.phase (IOS.state m)) then m
      else mainButton now m
  | TapPause now =>
      if pauseDisabled (IOS.phase (IOS.state m)) then m
      else IOS.pauseOrResume now m
  | TapCancel => IOS.cancel m
  | Timer now => IOS.tick now m
  | StepFocus up =>
      setConfig
        {| IOS.focusMinutes :=
             stepped 1 240 up (IOS.focusMinutes (IOS.config m));
           IOS.breakMinutes := IOS.breakMinutes (IOS.config m) |} m
  | StepBreak up =>
      setConfig
        {| IOS.focusMinutes := IOS.focusMinutes (IOS.config m);
           IOS.breakMinutes :=
             stepped 1 120 up (IOS.breakMinutes (IOS.config m)) |} m
  | Relaunch now => IOS.init now (IOS.savedConfig m) (IOS.savedState m)
  end.

(** The view models reached from a first launch. *)
Inductive reachable : IOS.TimerViewModel -> Prop :=
| reachable_launch now : reachable (IOS.init now None None)
| reachable_handle ev m : reachable m -> reachable (handle ev m).

Definition running (p : IOS.Phase) : bool :=
  match p with
  | IOS.runningFocus | IOS.runningBreak => true
  | _ => false
  end.

(** The time fields fit the phase. *)
Definition fieldsOk (s : IOS.State) : Prop :=
  match IOS.phase s with
  | IOS.runningFocus | IOS.runningBreak =>
      (exists e : Q, IOS.endDate s = Some e)
      /\ IOS.remainingSeconds s = None
  | IOS.pausedFocus | IOS.pausedBreak =>
      (exists r : Q, IOS.remainingSeconds s = Some r /\ (1 <= r)%Q)
      /\ IOS.endDate s = None
  | IOS.idle | IOS.waitingForConfirm =>
      IOS.endDate s = None /\ IOS.remainingSeconds s = None
  end.

Definition configOk (c : IOS.Config) : Prop :=
  1 <= IOS.focusMinutes c <= 240 /\ 1 <= IOS.breakMinutes c <= 120.

(** What is saved is what is held: the saved state is the state, unless
    nothing was ever saved and the state is the default one. *)
Definition savedOk (m : IOS.TimerViewModel) : Prop :=
  (IOS.savedState m = Some (IOS.state m)
   \/ IOS.savedState m = None /\ IOS.state m = IOS.defaultState)
  /\ (forall c : IOS.Config, IOS.savedConfig m = Some c -> configOk c).

Definition sound (m : IOS.TimerViewModel) : Prop :=
  fieldsOk (IOS.state m) /\ configOk (IOS.config m) /\ savedOk m.

End IOSApp.

(** The view model after a first launch and a tap on the main button. *)
Definition iosFocusModel : IOS.TimerViewModel :=
  IOSApp.handle (IOSApp.TapMain 0) (IOS.init 0 None None).

(** An instant on the grid of [2^-23] s, from the reference date of
    [Date] up to [2^30] s after it.  Every such instant is a [Double],
    as is every multiple of [2^-23] s up to [2^30] s in absolute value:
    a sum or a difference of two instants of the grid that is within
    [2^30] s is exact. *)
Definition onGrid (q : Q) : Prop :=
  exists k : Z, 0 <= k <= 2 ^ 53 /\ (q == k # 8388608)%Q.

(** * Tactics *)

Ltac enter :=
  unfold current, reenter, fire, initialize,
    handleAlarm, handlePhaseCompletion, onMessage, onStart, onAckA,
    onPause, onResume, onButtonClicked, isRunning, isPaused,
    evalState, execState in *;
  cbn in *.

Ltac split_ifs :=
  repeat (cbn;
          match goal with
          | |- context [if ?b then _ else _] => destruct b eqn:?
          end).

(** * Properties of the background script *)

(** ** Arithmetic of the stored values *)

Lemma add_not_nullish a b : JS.nullish (JS.add a b) = false.
Proof.
  unfold JS.add.
  destruct (JS.toNumber a) as [| | |s|x], (JS.toNumber b) as [| | |t|y];
    try reflexivity.
  destruct (Bool.eqb s t); reflexivity.
Qed.

Lemma max_not_nullish a b : JS.nullish (JS.max a b) = false.
Proof.
  unfold JS.max.
  destruct (JS.toNumber a) as [| | |[|]|x], (JS.toNumber b) as [| | |[|]|y];
    reflexivity.
Qed.

(** [Math.ceil(x / 1000)] is the least integer [c] with [x <= 1000 c]. *)
Lemma ceil_1000_bounds x :
  x <= 1000 * (- ((- x) / 1000)) < x + 1000.
Proof.
  pose proof (Z.div_mod (- x) 1000 ltac:(lia)) as E.
  pose proof (Z.mod_pos_bound (- x) 1000 ltac:(lia)) as B.
  lia.
Qed.

Lemma pause_arithmetic e now :
  JS.max (JS.Num 1) (JS.ceilDiv (JS.sub (JS.Num e) (JS.Num now)) 1000)
  = JS.Num (pausedSeconds e now).
Proof. reflexivity. Qed.

Lemma pausedSeconds_ge_1 e now : 1 <= pausedSeconds e now.
Proof. unfold pausedSeconds. lia. Qed.

Lemma pausedSeconds_overdue e now : e <= now -> pausedSeconds e now = 1.
Proof.
  intros H. unfold pausedSeconds.
  pose proof (ceil_1000_bounds (e + - now)). lia.
Qed.

Lemma pausedSeconds_ahead e now :
  now < e ->
  e - now <= pausedSeconds e now * 1000 < e - now + 1000.
Proof.
  intros H. unfold pausedSeconds.
  pose proof (ceil_1000_bounds (e + - now)). lia.
Qed.

(** ** Starting *)

(** C7. For all whole durations [dFocus, dBreak >= 1] (seconds), a start
    request received while the phase is Idle is accepted, persists the
    configuration, and stores phase RunningFocus with [paused] false,
    [remainingSeconds] null and [endTimestamp] equal to the time of the
    start plus [dFocus] (in milliseconds: [now + dFocus * 1000]); the
    completion alarm is set for that instant and the heartbeat is on.
    The clock reading is at or after the epoch and the numbers are
    within [Number.MAX_SAFE_INTEGER], where the sum and the product of
    [startPhase] are exact. *)
Theorem start_from_idle :
  forall (w : World) (now dFocus dBreak : Z),
    phase (current w) = IDLE ->
    1 <= dFocus ->
    1 <= dBreak ->
    0 <= now ->
    now + dFocus * 1000 <= JS.MAX_SAFE_INTEGER ->
    dBreak <= JS.MAX_SAFE_INTEGER ->
    let cfg := {| durationASeconds := JS.Num dFocus;
                  durationBSeconds := JS.Num dBreak |} in
    let request := {| type := "start"; config := Some cfg |} in
    evalState (onMessage now request) w = accepted
    /\ storedConfig (execState (onMessage now request) w) = Some cfg
    /\ storedState (execState (onMessage now request) w)
       = Some {| phase := RUNNING_A;
                 endTimestamp := JS.Num (now + dFocus * 1000);
                 paused := Some false;
                 remainingSeconds := JS.Null |}
    /\ specPhase (current (execState (onMessage now request) w))
       = RunningFocus
    /\ phaseEndAlarm (execState (onMessage now request) w)
       = Some (JS.Num (now + dFocus * 1000))
    /\ heartbeatAlarm (execState (onMessage now request) w) = true.
Proof.
  intros w now dFocus dBreak Hidle HA HB _ _ _ cfg request.
  destruct w as [c st al hb ev].
  unfold current in Hidle. cbn in Hidle.
  unfold evalState, execState, onMessage, onStart. cbn.
  rewrite Hidle. cbn.
  destruct (Z.ltb_spec dFocus 1); [lia|].
  destruct (Z.ltb_spec dBreak 1); [lia|].
  cbn. destruct hb; cbn; repeat split; reflexivity.
Qed.

Lemma start_from_idle_witness :
  phase (current initialWorld) = IDLE
  /\ 1000 + 60 * 1000 <= JS.MAX_SAFE_INTEGER
  /\ storedState
       (execState
          (onMessage 1000
             {| type := "start";
                config := Some {| durationASeconds := JS.Num 60;
                                  durationBSeconds := JS.Num 60 |} |})
          initialWorld)
     = Some {| phase := RUNNING_A; endTimestamp := JS.Num 61000;
               paused := Some false; remainingSeconds := JS.Null |}.
Proof.
  split; [reflexivity|].
  split; [unfold JS.MAX_SAFE_INTEGER; lia|].
  exact (proj1 (proj2 (proj2 (start_from_idle initialWorld 1000 60 60
                                eq_refl ltac:(lia) ltac:(lia) ltac:(lia)
                                ltac:(unfold JS.MAX_SAFE_INTEGER; lia)
                                ltac:(unfold JS.MAX_SAFE_INTEGER; lia))))).
Defined.

(** ** Shared steps *)

(** A stored state that the specification calls paused. *)
Lemma paused_inv (s : TimerState) :
  specPhase s = PausedFocus \/ specPhase s = PausedBreak ->
  isPaused s = true /\ (phase s = RUNNING_A \/ phase s = RUNNING_B).
Proof.
  unfold specPhase.
  destruct (phase s), (isPaused s); intros [H|H];
    try discriminate; split; auto.
Qed.

(** A stored state that the specification calls running. *)
Lemma running_inv (s : TimerState) :
  specPhase s = RunningFocus \/ specPhase s = RunningBreak ->
  isPaused s = false /\ (phase s = RUNNING_A \/ phase s = RUNNING_B).
Proof.
  unfold specPhase.
  destruct (phase s), (isPaused s); intros [H|H];
    try discriminate; split; auto.
Qed.

Lemma reenter_overdue (w : World) (s : TimerState) (e now : Z) (r : Reentry) :
  storedState w = Some s ->
  specPhase s = RunningFocus \/ specPhase s = RunningBreak ->
  endTimestamp s = JS.Num e ->
  e <> 0 ->
  e <= now ->
  storedState (execState (reenter r now) w) = Some (completed s)
  /\ notifications (execState (reenter r now) w)
     = notifications w ++ [completionNotice s].
Proof.
  intros Hs Hrun He Hnz Hle.
  apply running_inv in Hrun. destruct Hrun as [Hp Hph].
  destruct w as [c st al hb ev], s as [p en pa rs].
  cbn in Hs, He. subst st en.
  unfold isPaused in Hp. cbn in Hp, Hph.
  unfold completed, completionNotice, notifications. cbn [phase].
  assert (Ht : (e =? 0) = false) by now apply Z.eqb_neq.
  assert (Hg : (e <=? now) = true) by now apply Z.leb_le.
  destruct pa as [[|]|]; try discriminate;
    destruct r, Hph; subst p; enter; destruct c, hb; cbn;
    repeat (progress (rewrite ?Ht, ?Hg); cbn);
    rewrite ?filter_app; cbn; rewrite ?app_nil_r; auto.
Qed.

(** ** Missed wake-ups *)

(** C1. Take any persisted state in phase RunningFocus or RunningBreak
    (running, not paused) whose [endTimestamp] is a timestamp [e] that has
    passed ([e <= now]).  Each re-entry of the controller at [now] -- the
    start of the process, a heartbeat, the completion alarm -- stores
    WaitingConfirm with [endTimestamp] cleared when the phase was
    RunningFocus and the default state (Idle) when it was RunningBreak,
    and requests the one completion notification: the same stored state
    and the same notifications as the completion alarm firing exactly at
    [e].  (The script tests [endTimestamp] for truthiness, so [e] is a
    non-zero number.) *)
Theorem missed_completion_is_caught_up :
  forall (w : World) (s : TimerState) (e now : Z) (r : Reentry),
    storedState w = Some s ->
    specPhase s = RunningFocus \/ specPhase s = RunningBreak ->
    endTimestamp s = JS.Num e ->
    e <> 0 ->
    e <= now ->
    let after := execState (reenter r now) w in
    let onTime := execState (handleAlarm e ALARM_ID) w in
    (specPhase s = RunningFocus ->
       storedState after
       = Some {| phase := WAITING_A; endTimestamp := JS.Null;
                 paused := None; remainingSeconds := JS.Undefined |}
       /\ notifications after = notifications w ++ [focusComplete])
    /\ (specPhase s = RunningBreak ->
          storedState after = Some DEFAULT_STATE
          /\ notifications after = notifications w ++ [breakComplete])
    /\ storedState after = storedState onTime
    /\ notifications after = notifications onTime.
Proof.
  intros w s e now r Hs Hrun He Hnz Hle after onTime.
  destruct (reenter_overdue w s e now r Hs Hrun He Hnz Hle) as [A B].
  destruct (reenter_overdue w s e e CompletionAlarm Hs Hrun He Hnz
              (Z.le_refl e)) as [A' B'].
  fold after in A, B. change (execState (reenter CompletionAlarm e) w)
    with onTime in A', B'.
  assert (Focus : specPhase s = RunningFocus -> phase s = RUNNING_A).
  { unfold specPhase. destruct (phase s), (isPaused s);
      intros; try discriminate; reflexivity. }
  assert (Break : specPhase s = RunningBreak -> phase s = RUNNING_B).
  { unfold specPhase. destruct (phase s), (isPaused s);
      intros; try discriminate; reflexivity. }
  split; [|split; [|split]].
  - intros Hphase. rewrite A, B. unfold completed, completionNotice.
    rewrite (Focus Hphase). split; reflexivity.
  - intros Hphase. rewrite A, B. unfold completed, completionNotice.
    rewrite (Break Hphase). split; reflexivity.
  - congruence.
  - congruence.
Qed.

Lemma missed_completion_is_caught_up_witness :
  storedState
    (execState (reenter Heartbeat 125000) focusWorld)
  = storedState (execState (handleAlarm 61000 ALARM_ID) focusWorld)
  /\ notifications (execState (reenter Heartbeat 125000) focusWorld)
     = [focusComplete].
Proof.
  pose proof (missed_completion_is_caught_up focusWorld
                {| phase := RUNNING_A; endTimestamp := JS.Num 61000;
                   paused := Some false; remainingSeconds := JS.Null |}
                61000 125000 Heartbeat
                eq_refl (or_introl eq_refl) eq_refl
                ltac:(discriminate) ltac:(lia)) as H.
  cbv zeta in H. destruct H as (F & _ & S & _).
  split; [exact S | exact (proj2 (F eq_refl))].
Defined.

(** ** Paused phases *)

Lemma paused_fire (w : World) (s : TimerState) (t : Trigger) :
  storedState w = Some s ->
  specPhase s = PausedFocus \/ specPhase s = PausedBreak ->
  resumesOrCancels t = false ->
  storedState (fire t w) = Some s
  /\ notifications (fire t w) = notifications w.
Proof.
  intros Hs Hp Ht.
  apply paused_inv in Hp. destruct Hp as [Hp Hph].
  destruct w as [c st al hb ev], s as [p en pa rs].
  cbn in Hs. subst st.
  unfold isPaused in Hp. cbn in Hp, Hph.
  destruct pa as [[|]|]; try discriminate.
  unfold notifications.
  destruct t as [now m|now name|now i|now]; cbn in Ht.
  - apply orb_false_elim in Ht. destruct Ht as [Hr Hc].
    enter.
    destruct (type m =? "start")%string; [destruct Hph; subst p; cbn; auto|].
    destruct (type m =? "ackA")%string;
      destruct Hph; subst p; cbn;
      (destruct (type m =? "pause")%string;
       [cbn; rewrite ?andb_false_r; cbn; auto|]);
      rewrite ?Hr, ?Hc; cbn; auto.
  - enter.
    destruct (name =? ALARM_ID)%string; cbn.
    + destruct Hph; subst p; cbn;
        destruct en as [| | |[|]|z]; cbn; auto;
        destruct (z =? 0); cbn; auto;
        destruct (z <=? now); cbn; auto.
    + destruct (name =? HEARTBEAT_ALARM_ID)%string; cbn;
        rewrite ?filter_app; cbn; rewrite ?app_nil_r; auto.
  - enter. destruct Hph; subst p; cbn; auto.
  - enter. destruct c, hb, Hph; subst p; cbn;
      destruct en as [| | |[|]|z]; cbn;
      try (destruct (z =? 0); cbn; try destruct (z <=? now); cbn);
      rewrite ?filter_app; cbn; rewrite ?app_nil_r; auto.
Qed.

Lemma reenter_as_trigger (r : Reentry) (now : Z) (w : World) :
  execState (reenter r now) w
  = fire match r with
         | ProcessStart => OnLoad now
         | Heartbeat => OnAlarm now HEARTBEAT_ALARM_ID
         | CompletionAlarm => OnAlarm now ALARM_ID
         end w.
Proof. destruct r; reflexivity. Qed.

(** C2. In a paused state (paused focus or paused break), whatever
    [endTimestamp] it carries, no re-entry of the controller (start of the
    process, heartbeat, completion alarm) changes the stored state or
    requests a notification; more generally every trigger other than a
    resume or a cancel message leaves the stored state as it is and
    requests no notification.  The iOS view model likewise: in
    [pausedFocus] or [pausedBreak] the launch check, the tick, [start] and
    [confirmStartBreak] leave the model unchanged. *)
Theorem paused_never_completes :
  (forall (w : World) (s : TimerState),
      storedState w = Some s ->
      specPhase s = PausedFocus \/ specPhase s = PausedBreak ->
      (forall (r : Reentry) (now : Z),
          storedState (execState (reenter r now) w) = Some s
          /\ notifications (execState (reenter r now) w) = notifications w)
      /\ (forall t : Trigger,
             resumesOrCancels t = false ->
             storedState (fire t w) = Some s
             /\ notifications (fire t w) = notifications w))
  /\ (forall (m : IOS.TimerViewModel) (now : Q),
         iosPaused (IOS.phase (IOS.state m)) = true ->
         (forall r : IOS.Reentry, IOS.reenter r now m = m)
         /\ IOS.start now m = m
         /\ IOS.confirmStartBreak now m = m).
Proof.
  split.
  - intros w s Hs Hp. split.
    + intros r now. rewrite reenter_as_trigger.
      apply (paused_fire w s); auto. destruct r; reflexivity.
    + intros t Ht. apply (paused_fire w s); auto.
  - intros m now Hp.
    unfold IOS.reenter, IOS.resumeIfNeeded, IOS.tick, IOS.start,
      IOS.confirmStartBreak.
    destruct (IOS.phase (IOS.state m)); try discriminate;
      (split; [intros [|]; reflexivity | split; reflexivity]).
Qed.

Lemma paused_never_completes_witness :
  (storedState (execState (reenter CompletionAlarm 125000) staleWorld)
   = storedState staleWorld
   /\ notifications (execState (reenter CompletionAlarm 125000) staleWorld)
      = [])
  /\ storedState (execState (reenter Heartbeat 125000) pausedWorld)
     = storedState pausedWorld
  /\ IOS.reenter IOS.Tick 5000 iosPausedModel = iosPausedModel.
Proof.
  destruct paused_never_completes as [chrome ios].
  split; [|split].
  - exact (proj1 (chrome staleWorld _ eq_refl (or_introl eq_refl))
             CompletionAlarm 125000).
  - exact (proj1 (proj1 (chrome pausedWorld _ eq_refl (or_introl eq_refl))
                    Heartbeat 125000)).
  - exact (proj1 (ios iosPausedModel 5000%Q eq_refl) IOS.Tick).
Defined.

(** ** Cancelling *)

(** C8. A cancel message is accepted in every world and stores the default
    state: phase Idle, [endTimestamp] and [remainingSeconds] null, with the
    completion alarm cleared.  A completion check that fires afterwards, at
    any time, finds Idle and changes nothing at all; a heartbeat or a
    process start afterwards leaves the stored state Idle and requests no
    notification. *)
Theorem cancel_wins :
  forall (w : World) (now later : Z) (cfg : option Config),
    let cancel := {| type := "cancel"; config := cfg |} in
    let w1 := execState (onMessage now cancel) w in
    evalState (onMessage now cancel) w = accepted
    /\ storedState w1 = Some DEFAULT_STATE
    /\ specPhase (current w1) = Idle
    /\ endTimestamp (current w1) = JS.Null
    /\ remainingSeconds (current w1) = JS.Null
    /\ phaseEndAlarm w1 = None
    /\ execState (handleAlarm later ALARM_ID) w1 = w1
    /\ (forall r : Reentry,
           storedState (execState (reenter r later) w1) = Some DEFAULT_STATE
           /\ notifications (execState (reenter r later) w1)
              = notifications w1).
Proof.
  intros [c st al hb ev] now later cfg cancel w1.
  subst w1 cancel. enter.
  repeat split; try reflexivity.
  all: destruct r; enter; destruct c, hb; cbn;
    rewrite ?filter_app; cbn; rewrite ?app_nil_r; reflexivity.
Qed.

(** ** The invariant on the time fields *)

Lemma timeFieldsOk_default : timeFieldsOk DEFAULT_STATE.
Proof. split; reflexivity. Qed.

(** The arithmetic plays no part in which branch writes what: it is
    kept folded while the handlers are unfolded. *)
Opaque JS.add JS.max JS.truthy JS.ge JS.lt JS.isFinite.

Lemma fire_preserves_timeFieldsOk (t : Trigger) (w : World) :
  timeFieldsOk (current w) -> timeFieldsOk (current (fire t w)).
Proof.
  intros H.
  destruct w as [c [[p en pa rs]|] al hb ev].
  all: destruct t as [now [ty [cfg|]]|now name|now i|now]; enter.
  all: unfold timeFieldsOk, specPhase, isPaused in *; cbn in *.
  all: try destruct p; try destruct pa as [[|]|]; cbn in *.
  all: split_ifs; cbn; auto using add_not_nullish, max_not_nullish.
Qed.

Lemma refusal_changes_nothing (w : World) (now : Z) (m : Message) :
  ok (evalState (onMessage now m) w) = false ->
  execState (onMessage now m) w = w
  /\ exists reason : string, evalState (onMessage now m) w = rejected reason.
Proof.
  destruct w as [c [[p en pa rs]|] al hb ev], m as [ty [cfg|]].
  all: enter; try destruct p; try destruct pa as [[|]|]; cbn.
  all: split_ifs; cbn; intros H; try discriminate; eauto.
Qed.

Transparent JS.add JS.max JS.truthy JS.ge JS.lt JS.isFinite.

(** C3. Every state reachable from a fresh installation by any sequence
    of triggers (messages of any type and content, alarms of any name,
    notification buttons, restarts of the process; in particular start,
    pause, resume, acknowledge, cancel and the completion check) satisfies:
    while running and not paused [endTimestamp] holds a value and
    [remainingSeconds] holds none; while paused [remainingSeconds] holds a
    value and [endTimestamp] holds none; in Idle and WaitingConfirm
    neither holds a value.  A field holds no value when it is [null] or
    missing from the stored object, as [remainingSeconds] is after the
    transition to WaitingConfirm. *)
Theorem reachable_time_fields :
  forall w : World,
    reachable w ->
    let s := current w in
    (specPhase s = RunningFocus \/ specPhase s = RunningBreak ->
       JS.nullish (endTimestamp s) = false
       /\ JS.nullish (remainingSeconds s) = true)
    /\ (specPhase s = PausedFocus \/ specPhase s = PausedBreak ->
          JS.nullish (remainingSeconds s) = false
          /\ JS.nullish (endTimestamp s) = true)
    /\ (specPhase s = Idle \/ specPhase s = WaitingConfirm ->
          JS.nullish (endTimestamp s) = true
          /\ JS.nullish (remainingSeconds s) = true).
Proof.
  intros w Hw s.
  assert (Ok : timeFieldsOk s).
  { subst s. induction Hw as [|t w Hw IH].
    - exact timeFieldsOk_default.
    - now apply fire_preserves_timeFieldsOk. }
  unfold timeFieldsOk in Ok.
  split; [|split]; intros [E|E]; rewrite E in Ok; exact Ok.
Qed.

Lemma reachable_pausedWorld : reachable pausedWorld.
Proof.
  exact (reachable_fire (OnMessage 31000 (say "pause")) _
           (reachable_fire (OnMessage 1000 start6060) _ reachable_initial)).
Defined.

Lemma reachable_time_fields_witness :
  reachable pausedWorld
  /\ remainingSeconds (current pausedWorld) = JS.Num 30
  /\ JS.nullish (remainingSeconds (current pausedWorld)) = false
  /\ JS.nullish (endTimestamp (current pausedWorld)) = true.
Proof.
  split; [exact reachable_pausedWorld|].
  split; [reflexivity|].
  exact (proj1 (proj2 (reachable_time_fields pausedWorld
                         reachable_pausedWorld))
           (or_introl eq_refl)).
Defined.

(** ** Rejections *)

Lemma invalid_not_valid (cfg : option Config) :
  invalidDurations cfg -> validDurations cfg = false.
Proof.
  destruct cfg as [[a b]|]; [|reflexivity].
  unfold invalidDurations, nonPositiveOrNonFinite, validDurations. cbn.
  intros [[H|(z & -> & H)]|[H|(z & -> & H)]].
  - rewrite H. reflexivity.
  - cbn. destruct (Z.ltb_spec z 1); [|lia].
    now rewrite orb_true_r.
  - rewrite H. cbn. now rewrite orb_true_r.
  - cbn. destruct (Z.ltb_spec z 1); [|lia].
    now rewrite !orb_true_r.
Qed.

Lemma rejection_answer (w : World) (now : Z) (m : Message) (reason : string) :
  Rejection w m reason ->
  runState (onMessage now m) w = (rejected reason, w).
Proof.
  intros R. destruct w as [c st al hb ev].
  destruct R as [cfg H|cfg H V|cfg H|cfg H].
  - enter. destruct (phase _); [contradiction| | |]; reflexivity.
  - apply invalid_not_valid in V.
    unfold current, evalState in H. cbn in H.
    unfold onMessage, onStart. cbn -[validDurations].
    rewrite H. cbn -[validDurations].
    destruct cfg as [cf|]; [|reflexivity].
    rewrite V. reflexivity.
  - unfold canPause, specPhase in H. enter.
    destruct st as [[p en pa rs]|]; [|reflexivity]. cbn in *.
    destruct (JS.truthy en); [|now rewrite andb_false_r].
    destruct p, pa as [[|]|]; cbn in *; try reflexivity;
      exfalso; apply H; auto.
  - unfold canResume, specPhase in H. enter.
    destruct st as [[p en pa rs]|]; [|reflexivity]. cbn in *.
    destruct (JS.truthy rs); [|now rewrite andb_false_r].
    destruct p, pa as [[|]|]; cbn in *; try reflexivity;
      exfalso; apply H; auto.
Qed.

(** C5. Each rejection of the error policy -- a start request in a phase
    other than Idle ("Timer already running."), a start request in Idle
    without a configuration or with a duration that is not a finite number
    or is not positive ("Invalid durations."), a pause request whose guard
    fails ("Nothing to pause."), a resume request whose guard fails
    ("Nothing to resume.") -- is answered with [ok = false] and that
    reason and leaves the whole world (stored configuration and state,
    alarms, requested effects) exactly as it was.  Moreover every answer
    with [ok = false], whatever the message, carries a reason and comes
    with an unchanged world: no request is refused after a write. *)
Theorem rejections_are_structured_and_pure :
  forall (w : World) (now : Z) (m : Message),
    (forall reason : string,
        Rejection w m reason ->
        runState (onMessage now m) w
        = ({| ok := false; error := Some reason |}, w))
    /\ (ok (evalState (onMessage now m) w) = false ->
        execState (onMessage now m) w = w
        /\ exists reason : string,
            evalState (onMessage now m) w
            = {| ok := false; error := Some reason |}).
Proof.
  intros w now m. split.
  - intros reason R. now apply rejection_answer.
  - apply refusal_changes_nothing.
Qed.

Lemma rejections_are_structured_and_pure_witness :
  runState (onMessage 5000 (say "pause")) initialWorld
  = ({| ok := false; error := Some "Nothing to pause." |}, initialWorld)
  /\ runState
       (onMessage 5000
          {| type := "start";
             config := Some {| durationASeconds := JS.Num 0;
                               durationBSeconds := JS.Infinity true |} |})
       initialWorld
     = ({| ok := false; error := Some "Invalid durations." |}, initialWorld)
  /\ execState (onMessage 5000 start6060) focusWorld = focusWorld.
Proof.
  split; [|split].
  - apply (proj1 (rejections_are_structured_and_pure initialWorld 5000
                    (say "pause"))).
    apply NothingToPause. intros [[H|H] _]; discriminate H.
  - apply (proj1 (rejections_are_structured_and_pure initialWorld 5000 _)).
    apply BadDurations; [reflexivity|].
    left. right. exists 0. split; [reflexivity | lia].
  - apply (proj2 (rejections_are_structured_and_pure focusWorld 5000
                    start6060)).
    reflexivity.
Defined.

(** ** Acknowledging *)

(** The second of two acknowledgements in a row, sent as a message, is
    answered with [ok = false] and the reason "Invalid state.". *)
Lemma duplicate_acknowledge_is_refused :
  specPhase (current waitingWorld) = WaitingConfirm
  /\ specPhase (current breakWorld) = RunningBreak
  /\ ok (evalState (onMessage 63000 (say "ackA")) breakWorld) = false
  /\ error (evalState (onMessage 63000 (say "ackA")) breakWorld)
     = Some "Invalid state.".
Proof. repeat split; reflexivity. Qed.

(** C4 (amended). From WaitingConfirm an acknowledgement is accepted and
    starts the break: phase RunningBreak, ending at the time of the
    acknowledgement plus the stored break duration.  A second
    acknowledgement changes nothing in the world, so the transition
    happens once; sent as an [ackA] message it is answered with
    [ok = false] and the reason "Invalid state.", and made by a click on
    the notification button it is ignored without any answer. *)
Theorem acknowledge_once :
  forall (w : World) (now1 now2 : Z) (cfg1 cfg2 : option Config),
    specPhase (current w) = WaitingConfirm ->
    let ack1 := {| type := "ackA"; config := cfg1 |} in
    let ack2 := {| type := "ackA"; config := cfg2 |} in
    let w1 := execState (onMessage now1 ack1) w in
    evalState (onMessage now1 ack1) w = accepted
    /\ storedState w1
       = Some {| phase := RUNNING_B;
                 endTimestamp :=
                   JS.add (JS.Num now1)
                     (JS.mul (durationBSeconds (evalState getConfig w))
                        (JS.Num 1000));
                 paused := Some false;
                 remainingSeconds := JS.Null |}
    /\ specPhase (current w1) = RunningBreak
    /\ runState (onMessage now2 ack2) w1 = (rejected "Invalid state.", w1)
    /\ (forall i : Z, execState (onButtonClicked now2 i) w1 = w1).
Proof.
  intros [c [[p en pa rs]|] al hb ev] now1 now2 cfg1 cfg2 Hw ack1 ack2 w1;
    subst ack1 ack2 w1; unfold specPhase in Hw; enter;
    [|discriminate].
  destruct p, pa as [[|]|]; try discriminate;
    cbn; destruct hb; cbn; repeat split; reflexivity.
Qed.

Lemma acknowledge_once_witness :
  specPhase (current waitingWorld) = WaitingConfirm
  /\ storedState (execState (onMessage 62000 (say "ackA")) waitingWorld)
     = Some {| phase := RUNNING_B; endTimestamp := JS.Num 122000;
               paused := Some false; remainingSeconds := JS.Null |}.
Proof.
  split; [reflexivity|].
  exact (proj1 (proj2 (acknowledge_once waitingWorld 62000 63000 None None
                         eq_refl))).
Defined.

(** ** Pausing and resuming *)

Lemma resume_paused (w : World) (s : TimerState) (r now : Z)
    (cfg : option Config) :
  current w = s ->
  specPhase s = PausedFocus \/ specPhase s = PausedBreak ->
  remainingSeconds s = JS.Num r ->
  r <> 0 ->
  runState (onMessage now {| type := "resume"; config := cfg |}) w
  = (accepted,
     {| storedConfig := storedConfig w;
        storedState := Some (resumedState s (JS.Num (now + r * 1000)));
        phaseEndAlarm := Some (JS.Num (now + r * 1000));
        heartbeatAlarm := true;
        effects :=
          (effects w
           ++ [ActionUI (resumedState s (JS.Num (now + r * 1000)))])
          ++ [StateChanged (resumedState s (JS.Num (now + r * 1000)))] |}).
Proof.
  intros Hs Hpau Hr Hnz.
  apply paused_inv in Hpau. destruct Hpau as [Hp Hph].
  assert (Ht : (r =? 0) = false) by now apply Z.eqb_neq.
  destruct w as [c [[p en pa rs]|] al hb ev]; subst s;
    unfold current, evalState, isPaused in *; cbn in *;
    [|destruct Hph; discriminate].
  subst rs.
  destruct pa as [[|]|]; try discriminate;
    destruct Hph; subst p; unfold onMessage, onResume, resumedState;
    cbn; rewrite Ht; cbn; destruct hb; reflexivity.
Qed.

(** A focus phase ending at [t = 61000] that is paused at [t = 66000],
    five seconds after its end, and resumed at [t = 70000] ends at
    [t = 71000]: six seconds later than the old end shifted by the four
    seconds of the pause. *)
Lemma late_pause_shifts_more_than_the_pause :
  endTimestamp (current focusWorld) = JS.Num 61000
  /\ remainingSeconds
       (current (execState (onMessage 66000 (say "pause")) focusWorld))
     = JS.Num 1
  /\ endTimestamp
       (current
          (execState (onMessage 70000 (say "resume"))
             (execState (onMessage 66000 (say "pause")) focusWorld)))
     = JS.Num 71000
  /\ ~ (-1000 <= 71000 - (61000 + (70000 - 66000)) <= 1000).
Proof. repeat split; try reflexivity. lia. Qed.

Section RunningPhase.

(** A world whose current state [s] is running and not paused, with its
    end set to the number [e]. *)
Variables (w : World) (s : TimerState) (e : Z).
Hypothesis current_is_s : current w = s.
Hypothesis running :
  specPhase s = RunningFocus \/ specPhase s = RunningBreak.
Hypothesis end_is_e : endTimestamp s = JS.Num e.
Hypothesis end_is_set : e <> 0.

Lemma pause_running (now : Z) (cfg : option Config) :
  runState (onMessage now {| type := "pause"; config := cfg |}) w
  = (accepted,
     {| storedConfig := storedConfig w;
        storedState :=
          Some (pausedState s (JS.Num (pausedSeconds e now)));
        phaseEndAlarm := None;
        heartbeatAlarm := heartbeatAlarm w;
        effects :=
          (effects w
           ++ [ActionUI (pausedState s (JS.Num (pausedSeconds e now)))])
          ++ [StateChanged
                (pausedState s (JS.Num (pausedSeconds e now)))] |}).
Proof.
  destruct (running_inv s running) as [Hp Hph].
  assert (Ht : (e =? 0) = false) by now apply Z.eqb_neq.
  generalize current_is_s end_is_e. clear current_is_s running end_is_e.
  destruct w as [c [[p en pa rs]|] al hb ev]; intros Hs He; subst s;
    unfold current, evalState, isPaused in *; cbn in *;
    [|destruct Hph; discriminate].
  subst en. rewrite <- pause_arithmetic.
  destruct pa as [[|]|]; try discriminate;
    destruct Hph; subst p; unfold onMessage, onPause, pausedState;
    cbn; rewrite Ht; reflexivity.
Qed.

Lemma paused_after_pause (seconds : JS.value) :
  specPhase (pausedState s seconds) = PausedFocus
  \/ specPhase (pausedState s seconds) = PausedBreak.
Proof.
  destruct (running_inv s running) as [_ [Hph|Hph]];
    unfold specPhase, pausedState, isPaused; cbn; rewrite Hph; auto.
Qed.

Lemma resumed_after_pause (seconds e' : JS.value) :
  specPhase (resumedState (pausedState s seconds) e') = specPhase s.
Proof.
  destruct (running_inv s running) as [Hp [Hph|Hph]];
    unfold specPhase, resumedState, pausedState, isPaused in *; cbn;
    rewrite Hph, Hp; reflexivity.
Qed.

(** Pause at [t1], then resume at [t2]. *)
Lemma pause_then_resume (t1 t2 : Z) (cfg1 cfg2 : option Config) :
  let w1 :=
    execState (onMessage t1 {| type := "pause"; config := cfg1 |}) w in
  let e' := JS.Num (t2 + pausedSeconds e t1 * 1000) in
  let paused := pausedState s (JS.Num (pausedSeconds e t1)) in
  current w1 = paused
  /\ notifications w1 = notifications w
  /\ phaseEndAlarm w1 = None
  /\ runState (onMessage t2 {| type := "resume"; config := cfg2 |}) w1
     = (accepted,
        {| storedConfig := storedConfig w1;
           storedState := Some (resumedState paused e');
           phaseEndAlarm := Some e';
           heartbeatAlarm := true;
           effects :=
             (effects w1 ++ [ActionUI (resumedState paused e')])
             ++ [StateChanged (resumedState paused e')] |}).
Proof.
  intros w1 e' paused.
  assert (Hw1 : current w1 = paused)
    by (unfold w1, execState; rewrite pause_running; reflexivity).
  split; [exact Hw1|]. split; [|split].
  - unfold w1, execState, notifications. rewrite pause_running. cbn.
    rewrite !filter_app. cbn. now rewrite !app_nil_r.
  - unfold w1, execState. now rewrite pause_running.
  - pose proof (pausedSeconds_ge_1 e t1) as Hr.
    apply (resume_paused w1 paused (pausedSeconds e t1) t2 cfg2 Hw1
             (paused_after_pause _) eq_refl).
    lia.
Qed.

(** C6 (amended). For every running phase with end [e], a pause at [t1]
    followed by a resume at [t2] is accepted twice and restores the
    running phase it started from; the seconds [r] stored at the pause are
    at least 1 and the new end is [t2 + r * 1000].  When the pause comes
    no later than the end ([t1 <= e]) the new end is the old end shifted
    by the length of the pause, later by at most one second (by less than
    a second when [t1 < e]).  When the pause comes after the end the
    stored second is the clamp, [r = 1], and the new end is one second
    after the resume.  The end and the two clock readings are at or after
    the epoch and small enough for every number on the way -- the
    difference [e - t1], the product [r * 1000] and the new end -- to be
    within [Number.MAX_SAFE_INTEGER], where the script's arithmetic is
    exact; the new end is within that bound again. *)
Theorem pause_resume_round_trip :
  forall (t1 t2 : Z) (cfg1 cfg2 : option Config),
    0 <= e ->
    0 <= t1 <= JS.MAX_SAFE_INTEGER ->
    0 <= t2 ->
    t2 + e + 1000 <= JS.MAX_SAFE_INTEGER ->
    let pause := {| type := "pause"; config := cfg1 |} in
    let resume := {| type := "resume"; config := cfg2 |} in
    let w1 := execState (onMessage t1 pause) w in
    let w2 := execState (onMessage t2 resume) w1 in
    exists r e' : Z,
      evalState (onMessage t1 pause) w = accepted
      /\ remainingSeconds (current w1) = JS.Num r
      /\ 1 <= r
      /\ evalState (onMessage t2 resume) w1 = accepted
      /\ storedState w2
         = Some {| phase := phase s; endTimestamp := JS.Num e';
                   paused := Some false; remainingSeconds := JS.Null |}
      /\ specPhase (current w2) = specPhase s
      /\ e' = t2 + r * 1000
      /\ (t1 <= e -> 0 <= e' - (e + (t2 - t1)) <= 1000)
      /\ (t1 < e -> e' - (e + (t2 - t1)) < 1000)
      /\ (e < t1 -> r = 1 /\ e' = t2 + 1000)
      /\ - JS.MAX_SAFE_INTEGER <= e - t1 <= JS.MAX_SAFE_INTEGER
      /\ r * 1000 <= JS.MAX_SAFE_INTEGER
      /\ 0 < e' <= JS.MAX_SAFE_INTEGER.
Proof.
  intros t1 t2 cfg1 cfg2 He0 Ht1 Ht2 Hmax pause resume w1 w2.
  subst w2 w1 resume pause.
  pose proof (pause_then_resume t1 t2 cfg1 cfg2) as H. cbv zeta in H.
  destruct H as (Hw1 & _ & _ & R).
  pose proof (pausedSeconds_ge_1 e t1) as Hr.
  exists (pausedSeconds e t1), (t2 + pausedSeconds e t1 * 1000).
  split; [unfold evalState; now rewrite pause_running|].
  split; [now rewrite Hw1|].
  split; [exact Hr|].
  split; [unfold evalState; now rewrite R|].
  split; [unfold execState at 1; now rewrite R|].
  split.
  { unfold execState at 1. rewrite R. apply resumed_after_pause. }
  split; [reflexivity|].
  split; [|split; [|split]].
  - intros Hle. destruct (Z.eq_dec t1 e) as [->|Hne].
    + rewrite pausedSeconds_overdue by lia. lia.
    + pose proof (pausedSeconds_ahead e t1 ltac:(lia)). lia.
  - intros Hlt. pose proof (pausedSeconds_ahead e t1 Hlt). lia.
  - intros Hlt. rewrite pausedSeconds_overdue by lia. lia.
  - destruct (Z_lt_le_dec t1 e) as [Hlt|Hle].
    + pose proof (pausedSeconds_ahead e t1 Hlt). lia.
    + rewrite (pausedSeconds_overdue e t1 Hle).
      unfold JS.MAX_SAFE_INTEGER in *. lia.
Qed.

(** The pause of a phase whose end has passed, in the background script. *)
Lemma pause_overdue (now t : Z) (cfg1 cfg2 : option Config) :
  e <= now ->
  let pause := {| type := "pause"; config := cfg1 |} in
  let resume := {| type := "resume"; config := cfg2 |} in
  let w1 := execState (onMessage now pause) w in
  let w2 := execState (onMessage t resume) w1 in
  evalState (onMessage now pause) w = accepted
  /\ storedState w1
     = Some {| phase := phase s; endTimestamp := JS.Null;
               paused := Some true; remainingSeconds := JS.Num 1 |}
  /\ phaseEndAlarm w1 = None
  /\ notifications w1 = notifications w
  /\ evalState (onMessage t resume) w1 = accepted
  /\ storedState w2
     = Some {| phase := phase s; endTimestamp := JS.Num (t + 1000);
               paused := Some false; remainingSeconds := JS.Null |}
  /\ notifications w2 = notifications w.
Proof.
  intros Hle pause resume w1 w2. subst w2 w1 resume pause.
  pose proof (pause_then_resume now t cfg1 cfg2) as H. cbv zeta in H.
  destruct H as (_ & N1 & A1 & R).
  pose proof (pause_running now cfg1) as P.
  rewrite (pausedSeconds_overdue e now Hle) in P, R.
  replace (t + 1 * 1000) with (t + 1000) in R by lia.
  split; [unfold evalState; now rewrite P|].
  split; [unfold execState; now rewrite P|].
  split; [exact A1|].
  split; [exact N1|].
  split; [unfold evalState; now rewrite R|].
  split; [unfold execState at 1; now rewrite R|].
  rewrite <- N1. unfold execState at 1. rewrite R.
  unfold notifications. cbn [effects snd].
  rewrite !filter_app. cbn. now rewrite !app_nil_r.
Qed.

End RunningPhase.

Lemma pause_resume_round_trip_witness :
  endTimestamp (current focusWorld) = JS.Num 61000
  /\ 40000 + 61000 + 1000 <= JS.MAX_SAFE_INTEGER
  /\ storedState
       (execState (onMessage 40000 (say "resume"))
          (execState (onMessage 30500 (say "pause")) focusWorld))
     = Some {| phase := RUNNING_A; endTimestamp := JS.Num 71000;
               paused := Some false; remainingSeconds := JS.Null |}.
Proof.
  split; [reflexivity|].
  split; [unfold JS.MAX_SAFE_INTEGER; lia|].
  destruct (pause_resume_round_trip focusWorld _ 61000
              eq_refl (or_introl eq_refl) eq_refl ltac:(discriminate)
              30500 40000 None None ltac:(lia)
              ltac:(unfold JS.MAX_SAFE_INTEGER; lia) ltac:(lia)
              ltac:(unfold JS.MAX_SAFE_INTEGER; lia))
    as (r & e' & _ & Hr & _ & _ & Hs & _ & He' & _).
  cbn in Hr. injection Hr as <-. subst e'. exact Hs.
Defined.

(** ** Pausing an overdue phase *)

(** The same in the iOS view model. *)
Lemma ios_pause_overdue (m : IOS.TimerViewModel) (e now t : Q) :
  IOS.phase (IOS.state m) = IOS.runningFocus
  \/ IOS.phase (IOS.state m) = IOS.runningBreak ->
  IOS.endDate (IOS.state m) = Some e ->
  (e <= now)%Q ->
  IOS.state (IOS.pauseOrResume now m)
  = {| IOS.phase :=
         match IOS.phase (IOS.state m) with
         | IOS.runningFocus => IOS.pausedFocus
         | _ => IOS.pausedBreak
         end;
       IOS.endDate := None;
       IOS.remainingSeconds := Some 1%Q |}
  /\ IOS.requests (IOS.pauseOrResume now m) = IOS.requests m
  /\ IOS.state (IOS.pauseOrResume t (IOS.pauseOrResume now m))
     = {| IOS.phase := IOS.phase (IOS.state m);
          IOS.endDate := Some (t + 1)%Q;
          IOS.remainingSeconds := None |}.
Proof.
  intros Hph He Hle.
  assert (Hmax : IOS.max 1 (e - now) = 1%Q).
  { unfold IOS.max.
    destruct (Qle_bool 1 (e - now)) eqn:Hb; [|reflexivity].
    apply Qle_bool_iff in Hb. lra. }
  unfold IOS.pauseOrResume.
  destruct Hph as [Hph|Hph]; rewrite Hph, He; cbn; rewrite Hmax;
    repeat split; reflexivity.
Qed.

(** C10. A pause request for a running, unpaused phase whose end [e] has
    passed ([e <= now]) is accepted: it stores the same phase paused with
    [remainingSeconds = 1] and no [endTimestamp], clears the completion
    alarm and requests no notification, so the phase is not completed.
    A resume at any later time [t] is accepted and stores the running
    phase with end [t + 1000]: one more second.  The iOS view model
    likewise: [pauseOrResume] on a running phase whose [endDate] has
    passed stores the paused phase with [remainingSeconds = 1], and the
    next [pauseOrResume] sets [endDate] one second after its own time. *)
Theorem pause_preempts_overdue_completion :
  (forall (w : World) (s : TimerState) (e now t : Z)
          (cfg1 cfg2 : option Config),
      current w = s ->
      specPhase s = RunningFocus \/ specPhase s = RunningBreak ->
      endTimestamp s = JS.Num e ->
      e <> 0 ->
      e <= now ->
      let pause := {| type := "pause"; config := cfg1 |} in
      let resume := {| type := "resume"; config := cfg2 |} in
      let w1 := execState (onMessage now pause) w in
      let w2 := execState (onMessage t resume) w1 in
      evalState (onMessage now pause) w = accepted
      /\ storedState w1
         = Some {| phase := phase s; endTimestamp := JS.Null;
                   paused := Some true; remainingSeconds := JS.Num 1 |}
      /\ phaseEndAlarm w1 = None
      /\ notifications w1 = notifications w
      /\ evalState (onMessage t resume) w1 = accepted
      /\ storedState w2
         = Some {| phase := phase s; endTimestamp := JS.Num (t + 1000);
                   paused := Some false; remainingSeconds := JS.Null |}
      /\ notifications w2 = notifications w)
  /\ (forall (m : IOS.TimerViewModel) (e now t : Q),
         IOS.phase (IOS.state m) = IOS.runningFocus
         \/ IOS.phase (IOS.state m) = IOS.runningBreak ->
         IOS.endDate (IOS.state m) = Some e ->
         (e <= now)%Q ->
         let m1 := IOS.pauseOrResume now m in
         let m2 := IOS.pauseOrResume t m1 in
         IOS.state m1
         = {| IOS.phase :=
                match IOS.phase (IOS.state m) with
                | IOS.runningFocus => IOS.pausedFocus
                | _ => IOS.pausedBreak
                end;
              IOS.endDate := None;
              IOS.remainingSeconds := Some 1%Q |}
         /\ IOS.requests m1 = IOS.requests m
         /\ IOS.state m2
            = {| IOS.phase := IOS.phase (IOS.state m);
                 IOS.endDate := Some (t + 1)%Q;
                 IOS.remainingSeconds := None |}).
Proof.
  split.
  - intros w s e now t cfg1 cfg2 Hs Hrun He Hnz Hle.
    now apply (pause_overdue w s e).
  - intros m e now t Hph He Hle. now apply (ios_pause_overdue m e).
Qed.

Lemma pause_preempts_overdue_completion_witness :
  (endTimestamp (current focusWorld) = JS.Num 61000
   /\ storedState (execState (onMessage 66000 (say "pause")) focusWorld)
      = Some {| phase := RUNNING_A; endTimestamp := JS.Null;
                paused := Some true; remainingSeconds := JS.Num 1 |})
  /\ IOS.remainingSeconds
       (IOS.state
          (IOS.pauseOrResume 2000 (IOS.start 0 (IOS.init 0 None None))))
     = Some 1%Q.
Proof.
  destruct pause_preempts_overdue_completion as [chrome ios].
  split; [split; [reflexivity|]|].
  - exact (proj1 (proj2 (chrome focusWorld _ 61000 66000 70000 None None
                           eq_refl (or_introl eq_refl) eq_refl
                           ltac:(discriminate) ltac:(lia)))).
  - assert (L : (0 + inject_Z (25 * 60) <= 2000)%Q)
      by (apply Qle_bool_iff; reflexivity).
    pose proof (proj1 (ios (IOS.start 0 (IOS.init 0 None None)) _ 2000%Q 0%Q
                         (or_introl eq_refl) eq_refl L)) as H.
    cbv zeta in H. rewrite H. reflexivity.
Defined.

(** ** The scenarios of the specification, run *)

(** Start with 60 s and 60 s at [t = 1000]; the alarm at [t = 61000] stores
    WaitingConfirm and requests "focus complete" once; the acknowledgement
    at [t = 62000] starts the break ending at [t = 122000]; the alarm then
    stores the default state and requests "break complete" once. *)
Example end_to_end_scenario :
  storedState focusWorld
  = Some {| phase := RUNNING_A; endTimestamp := JS.Num 61000;
            paused := Some false; remainingSeconds := JS.Null |}
  /\ specPhase (current waitingWorld) = WaitingConfirm
  /\ notifications waitingWorld = [focusComplete]
  /\ storedState breakWorld
     = Some {| phase := RUNNING_B; endTimestamp := JS.Num 122000;
               paused := Some false; remainingSeconds := JS.Null |}
  /\ storedState (execState (handleAlarm 122000 ALARM_ID) breakWorld)
     = Some DEFAULT_STATE
  /\ notifications (execState (handleAlarm 122000 ALARM_ID) breakWorld)
     = [focusComplete; breakComplete].
Proof. repeat split; reflexivity. Qed.

(** Start at [t = 1000], cancel at [t = 31000]: the alarm queued for
    [t = 61000] finds Idle and changes nothing. *)
Example cancel_wins_scenario :
  storedState (execState (onMessage 31000 (say "cancel")) focusWorld)
  = Some DEFAULT_STATE
  /\ execState (handleAlarm 61000 ALARM_ID)
       (execState (onMessage 31000 (say "cancel")) focusWorld)
     = execState (onMessage 31000 (say "cancel")) focusWorld.
Proof. split; reflexivity. Qed.

(** * The popup *)

(** C9. When the text of the focus input parses to 333 (minutes) and the
    break input holds a usable number of minutes, a click on the start
    button in phase Idle sends a start request whose focus duration is
    exactly 5 seconds, not [333 * 60 = 19980], and whose break duration is
    the break input converted by [minutesToSeconds]; a break input that
    itself parses to 333 is converted to 19980 seconds. *)
Theorem focus_sentinel_333 :
  forall (parseFloat : string -> Popup.number) (timerA timerB : string)
         (q : Q) (durationBMinutes : Popup.number),
    parseFloat timerA = Popup.Finite q ->
    (q == 333)%Q ->
    Popup.clampMinutes parseFloat timerB = Some durationBMinutes ->
    Popup.sent (Popup.onStartClick parseFloat IDLE timerA timerB)
    = Some {| type := "start";
              config :=
                Some {| durationASeconds := JS.Num 5;
                        durationBSeconds :=
                          Popup.minutesToSeconds durationBMinutes |} |}
    /\ Popup.minutesToSeconds (Popup.Finite q) = JS.Num 19980
    /\ (forall qb : Q,
           durationBMinutes = Popup.Finite qb ->
           (qb == 333)%Q ->
           Popup.minutesToSeconds durationBMinutes = JS.Num 19980).
Proof.
  intros parseFloat timerA timerB q mb HA Hq HB.
  assert (F : forall x : Q, (x == 333)%Q ->
              Popup.minutesToSeconds (Popup.Finite x) = JS.Num 19980).
  { intros x Hx. unfold Popup.minutesToSeconds.
    assert (E : (x * 60 + (1 # 2) == 333 * 60 + (1 # 2))%Q)
      by (rewrite Hx; reflexivity).
    rewrite (Qfloor_comp _ _ E). reflexivity. }
  split; [|split].
  - unfold Popup.onStartClick. rewrite HB.
    unfold Popup.clampMinutes. rewrite HA.
    destruct (Qle_bool q 0) eqn:Hle.
    + apply Qle_bool_iff in Hle. lra.
    + cbn. apply Qeq_bool_iff in Hq. rewrite Hq. reflexivity.
  - now apply F.
  - intros qb -> Hqb. now apply F.
Qed.

Lemma focus_sentinel_333_witness :
  Popup.sent (Popup.onStartClick parseSample IDLE "333" "25")
  = Some {| type := "start";
            config := Some {| durationASeconds := JS.Num 5;
                              durationBSeconds := JS.Num 1500 |} |}.
Proof.
  exact (proj1 (focus_sentinel_333 parseSample "333" "25" 333
                  (Popup.Finite 25) eq_refl (Qeq_refl 333) eq_refl)).
Defined.

(** * More properties of the background script *)

(** ** Numbers in range *)

Lemma valid_is_validConfig (c : Config) :
  validDurations (Some c) = true -> validConfig c.
Proof.
  destruct c as [a b]. unfold validDurations. cbn.
  destruct a as [| | |sa|x], b as [| | |sb|y]; cbn; try discriminate.
  destruct (Z.ltb_spec x 1), (Z.ltb_spec y 1); cbn; try discriminate.
  intros _. exists x, y. repeat split; lia.
Qed.

Lemma validConfig_is_valid (c : Config) :
  validConfig c -> validDurations (Some c) = true.
Proof.
  intros (a & b & -> & Ha & Hb). unfold validDurations. cbn.
  destruct (Z.ltb_spec a 1), (Z.ltb_spec b 1); try lia; reflexivity.
Qed.

Lemma numbersOk_initial : numbersOk initialWorld.
Proof. split; [discriminate | exact I]. Qed.

Lemma add_mul_Num (now d : Z) :
  JS.add (JS.Num now) (JS.mul (JS.Num d) (JS.Num 1000))
  = JS.Num (now + d * 1000).
Proof. reflexivity. Qed.

Lemma validConfig_default : validConfig DEFAULT_CONFIG.
Proof. exists 60, 60. repeat split; lia. Qed.

(** The handlers are taken apart with the arithmetic and the validation
    folded; the values they compute are supplied by the equations above. *)
Opaque JS.add JS.mul JS.sub JS.ceilDiv JS.max JS.truthy JS.ge JS.lt
  JS.isFinite validDurations.

Ltac valid_durations :=
  repeat match goal with
         | H : validDurations (Some _) = true |- _ =>
             apply valid_is_validConfig in H;
             destruct H as (? & ? & E & ? & ?); injection E as -> ->
         end.

Ltac same_notifications :=
  unfold notifications; cbn [effects];
  rewrite ?filter_app; cbn; rewrite ?app_nil_r; reflexivity.

Ltac bools :=
  repeat match goal with
         | H : _ && _ = true |- _ => apply andb_prop in H; destruct H
         | H : negb _ = true |- _ => apply negb_true_iff in H
         | H : negb _ = false |- _ => apply negb_false_iff in H
         end.

Ltac side :=
  cbn;
  first [ reflexivity | assumption | lia | same_notifications
        | left; reflexivity
        | right; repeat split; first [reflexivity | assumption]
        | intros; reflexivity
        | intros; assumption ].

Lemma fire_is_a_step (t : Trigger) (w : World) :
  Step (clockOf t) w (fire t w).
Proof.
  destruct w as [c [[p en pa rs]|] al hb ev].
  all: destruct t as [now [ty [[a2 b2]|]]|now name|now i|now].
  all: try destruct p; try destruct pa as [[|]|].
  all: enter; split_ifs; cbn; bools.
  all: unfold clockOf.
  all: first
         [ solve [eapply Unchanged; side]
         | solve [eapply Started; side]
         | solve [eapply Acknowledged; side]
         | solve [eapply Paused; side]
         | solve [eapply Resumed; side]
         | solve [eapply Cancelled; side]
         | solve [eapply Completed; side] ].
Qed.

Transparent JS.add JS.mul JS.sub JS.ceilDiv JS.max JS.truthy JS.ge JS.lt
  JS.isFinite validDurations.

(** X1. Whatever enters the background script -- a message, an alarm, a
    notification button, the start of the worker -- does to the stored
    configuration, the stored state, the alarms and the notifications
    what one of seven kinds of transition does, each given by the tests
    and the expressions of the script: nothing beyond re-arming the
    completion alarm of a phase not yet over, switching the heartbeat on
    or storing the default configuration; the start of a focus phase from
    Idle, with durations that pass the test of the start request, ending
    at [now + durationASeconds * 1000] as the script computes it; the
    start of the break from WaitingConfirm; a pause; a resume; a cancel;
    the completion of a running, unpaused phase whose end has passed,
    with its one notification.  (The kinds are not exclusive.) *)
Theorem every_entry_is_a_transition :
  forall (t : Trigger) (w : World), Step (clockOf t) w (fire t w).
Proof. exact fire_is_a_step. Qed.

Lemma current_stored (w : World) (s : TimerState) :
  storedState w = Some s -> current w = s.
Proof.
  destruct w as [c st al hb ev]. cbn. intros ->. reflexivity.
Qed.

Lemma current_same (w w' : World) :
  storedState w' = storedState w -> current w' = current w.
Proof.
  destruct w as [c st al hb ev], w' as [c' st' al' hb' ev']. cbn.
  intros ->. reflexivity.
Qed.

Lemma specPhase_running (s : TimerState) :
  isRunning s = true -> isPaused s = false ->
  specPhase s = RunningFocus /\ phase s = RUNNING_A
  \/ specPhase s = RunningBreak /\ phase s = RUNNING_B.
Proof.
  unfold isRunning, specPhase. intros Hr ->.
  destruct (phase s); try discriminate; auto.
Qed.

Lemma specPhase_paused (s : TimerState) :
  isRunning s = true -> isPaused s = true ->
  specPhase s = PausedFocus /\ phase s = RUNNING_A
  \/ specPhase s = PausedBreak /\ phase s = RUNNING_B.
Proof.
  unfold isRunning, specPhase. intros Hr ->.
  destruct (phase s); try discriminate; auto.
Qed.

(** ** Numbers in range *)

Lemma numbersOk_step (now : Z) (w w' : World) :
  Step now w w' -> 0 <= now -> numbersOk w -> numbersOk w'.
Proof.
  intros S Hnow [Hcfg Hst]. unfold numbersOk.
  assert (V : validConfig (evalState getConfig w)).
  { destruct w as [[c|] st al hb ev]; cbn in *;
      [now apply Hcfg | exact validConfig_default]. }
  assert (D : forall c : Config,
             Some DEFAULT_CONFIG = Some c -> validConfig c).
  { intros c E. injection E as <-. exact validConfig_default. }
  remember (current w) as s eqn:Hs.
  destruct S as [Es Ec _ _ _
                |c e0 Ec Hv _ -> Es _ _ _
                |e Hp -> Ec Es _ _ _
                |Hr Hp Ht Ec Es _ _ _
                |e Hr Hp Ht -> Ec Es _ _ _
                |Ec Es _ _ _
                |Hr Hp Ht Hg Ec Es _ _ _];
    try rewrite <- Hs in *.
  - rewrite (current_same _ _ Es), <- Hs. split; [|exact Hst].
    destruct Ec as [->|[_ ->]]; [exact Hcfg | exact D].
  - rewrite (current_stored _ _ Es). split.
    + rewrite Ec. intros c' E. injection E as <-.
      now apply valid_is_validConfig.
    + apply valid_is_validConfig in Hv.
      destruct Hv as (a & b & -> & Ha & Hb). cbn.
      exists (now + a * 1000). repeat split. lia.
  - rewrite (current_stored _ _ Es), Ec. split; [exact Hcfg|].
    destruct V as (a & b & Eg & Ha & Hb). rewrite Eg. cbn.
    exists (now + b * 1000). repeat split. lia.
  - rewrite (current_stored _ _ Es), Ec. split; [exact Hcfg|].
    destruct (specPhase_running _ Hr Hp) as [[E Ph]|[E Ph]];
      rewrite E in Hst; destruct Hst as (e & He & Hle & Hrem);
      unfold specPhase, pausedState, isPaused;
      cbn [phase paused endTimestamp remainingSeconds];
      rewrite Ph, He, pause_arithmetic; eexists; repeat split;
      apply pausedSeconds_ge_1.
  - rewrite (current_stored _ _ Es), Ec. split; [exact Hcfg|].
    destruct (specPhase_paused _ Hr Hp) as [[E Ph]|[E Ph]];
      rewrite E in Hst; destruct Hst as (r & He & Hle & Hrem);
      unfold specPhase, resumedState, isPaused;
      cbn [phase paused endTimestamp remainingSeconds];
      rewrite Ph, He, add_mul_Num;
      exists (now + r * 1000); repeat split; lia.
  - rewrite (current_stored _ _ Es), Ec. split; [exact Hcfg | exact I].
  - rewrite (current_stored _ _ Es). split.
    + destruct Ec as [->|[_ ->]]; [exact Hcfg | exact D].
    + unfold completed. destruct (phase s); exact I.
Qed.

Lemma reachableAfterEpoch_numbersOk (w : World) :
  reachableAfterEpoch w -> numbersOk w.
Proof.
  induction 1 as [|t w Hw IH Hclock].
  - exact numbersOk_initial.
  - exact (numbersOk_step _ _ _ (fire_is_a_step t w) Hclock IH).
Qed.

(** X2. What is stored passes the tests the script applies to it.  In
    every world reached from a fresh installation with clock readings at
    or after the epoch: a stored configuration passes the duration test
    of the start request; while a phase runs [endTimestamp >= 1000]
    holds and [remainingSeconds] is null; while it is paused
    [remainingSeconds >= 1] holds and [endTimestamp] is null. *)
Theorem reachable_numbers_in_range :
  forall w : World,
    reachableAfterEpoch w ->
    (forall c : Config,
        storedConfig w = Some c -> validDurations (Some c) = true)
    /\ (specPhase (current w) = RunningFocus
        \/ specPhase (current w) = RunningBreak ->
        JS.ge (endTimestamp (current w)) (JS.Num 1000) = true
        /\ remainingSeconds (current w) = JS.Null)
    /\ (specPhase (current w) = PausedFocus
        \/ specPhase (current w) = PausedBreak ->
        JS.ge (remainingSeconds (current w)) (JS.Num 1) = true
        /\ endTimestamp (current w) = JS.Null).
Proof.
  intros w Hw. destruct (reachableAfterEpoch_numbersOk w Hw) as [Hc Hs].
  split; [intros c E; apply validConfig_is_valid, Hc, E|].
  split; intros [E|E]; rewrite E in Hs;
    destruct Hs as (x & -> & Hx & ->); cbn;
    (split; [apply Z.leb_le; exact Hx | reflexivity]).
Qed.

Lemma reachableAfterEpoch_pausedWorld : reachableAfterEpoch pausedWorld.
Proof.
  apply (afterEpoch_fire (OnMessage 31000 (say "pause"))); [|cbn; lia].
  apply (afterEpoch_fire (OnMessage 1000 start6060)); [|cbn; lia].
  exact afterEpoch_initial.
Defined.

Lemma reachable_numbers_in_range_witness :
  reachableAfterEpoch pausedWorld
  /\ JS.ge (remainingSeconds (current pausedWorld)) (JS.Num 1) = true
  /\ endTimestamp (current pausedWorld) = JS.Null.
Proof.
  split; [exact reachableAfterEpoch_pausedWorld|].
  exact (proj2 (proj2 (reachable_numbers_in_range pausedWorld
                         reachableAfterEpoch_pausedWorld))
           (or_introl eq_refl)).
Defined.

(** ** Alarms *)

Lemma nullish_not_truthy (v : JS.value) :
  JS.nullish v = true -> JS.truthy v = false.
Proof. destruct v; try discriminate; reflexivity. Qed.

Lemma alarmsOk_step (now : Z) (w w' : World) :
  Step now w w' -> timeFieldsOk (current w) -> alarmsOk w -> alarmsOk w'.
Proof.
  intros S Hf Ha. unfold alarmsOk.
  remember (current w) as s eqn:Hs.
  destruct S as [Es _ Ea Eh _
                |c e0 _ _ _ _ Es Ea Eh _
                |e _ _ _ Es Ea Eh _
                |Hr Hp _ _ Es Ea _ _
                |e Hr Hp _ _ _ Es Ea Eh _
                |_ Es Ea _ _
                |Hr Hp _ _ _ Es Ea _ _];
    try rewrite <- Hs in *.
  - rewrite (current_same _ _ Es), <- Hs.
    unfold alarmsOk in Ha. rewrite <- Hs in Ha.
    unfold timeFieldsOk in Hf.
    destruct Ea as [->|(Hr & Ht & _ & ->)].
    + destruct (specPhase s); try exact Ha.
      all: split; [apply Ha | apply Eh, Ha].
    + unfold isRunning, specPhase, isPaused in *.
      destruct (phase s); try discriminate;
        destruct (match paused s with Some b => b | None => false end);
        try (destruct Hf as [_ Hn];
             rewrite (nullish_not_truthy _ Hn) in Ht; discriminate).
      all: split; [reflexivity | apply Eh, Ha].
  - rewrite (current_stored _ _ Es). cbn. now rewrite Ea, Eh.
  - rewrite (current_stored _ _ Es). cbn. now rewrite Ea, Eh.
  - rewrite (current_stored _ _ Es).
    destruct (specPhase_running _ Hr Hp) as [[_ Ph]|[_ Ph]];
      unfold specPhase, pausedState, isPaused;
      cbn [phase paused]; rewrite Ph; exact Ea.
  - rewrite (current_stored _ _ Es).
    destruct (specPhase_paused _ Hr Hp) as [[_ Ph]|[_ Ph]];
      unfold specPhase, resumedState, isPaused;
      cbn [phase paused endTimestamp]; rewrite Ph; now rewrite Ea, Eh.
  - rewrite (current_stored _ _ Es). exact Ea.
  - rewrite (current_stored _ _ Es). unfold completed.
    destruct (specPhase_running _ Hr Hp) as [[_ Ph]|[_ Ph]];
      rewrite Ph in *; [exact I | exact Ea].
Qed.

Lemma reachable_timeFieldsOk (w : World) :
  reachable w -> timeFieldsOk (current w).
Proof.
  induction 1 as [|t w Hw IH].
  - exact timeFieldsOk_default.
  - now apply fire_preserves_timeFieldsOk.
Qed.

Lemma reachable_alarmsOk (w : World) : reachable w -> alarmsOk w.
Proof.
  induction 1 as [|t w Hw IH].
  - reflexivity.
  - exact (alarmsOk_step _ _ _ (fire_is_a_step t w)
             (reachable_timeFieldsOk w Hw) IH).
Qed.

(** X3. In every world reached from a fresh installation the alarms the
    script has asked for fit the phase: while a phase runs, unpaused, the
    completion alarm was last set for its [endTimestamp] and the heartbeat
    is on; while it is paused and in Idle no completion alarm is set. *)
Theorem reachable_alarms_fit_phase :
  forall w : World,
    reachable w ->
    (specPhase (current w) = RunningFocus
     \/ specPhase (current w) = RunningBreak ->
     phaseEndAlarm w = Some (endTimestamp (current w))
     /\ heartbeatAlarm w = true)
    /\ (specPhase (current w) = PausedFocus
        \/ specPhase (current w) = PausedBreak
        \/ specPhase (current w) = Idle ->
        phaseEndAlarm w = None).
Proof.
  intros w Hw. pose proof (reachable_alarmsOk w Hw) as H.
  unfold alarmsOk in H.
  split; [intros [E|E] | intros [E|[E|E]]]; rewrite E in H; exact H.
Qed.

Lemma reachable_alarms_fit_phase_witness :
  reachable pausedWorld
  /\ phaseEndAlarm pausedWorld = None
  /\ phaseEndAlarm focusWorld = Some (JS.Num 61000).
Proof.
  split; [exact reachable_pausedWorld|]. split.
  - exact (proj2 (reachable_alarms_fit_phase pausedWorld
                    reachable_pausedWorld)
             (or_introl eq_refl)).
  - exact (proj1 (proj1 (reachable_alarms_fit_phase focusWorld
                           (reachable_fire (OnMessage 1000 start6060) _
                              reachable_initial))
                    (or_introl eq_refl))).
Defined.

(** ** Notifications *)

(** X4. One entry of the script requests at most one notification, and it
    requests one exactly when it completes a phase: "Focus Timer complete"
    when the entry takes RunningFocus to WaitingConfirm, "Break Timer
    complete" when it takes RunningBreak to Idle; every other entry
    requests none, and WaitingConfirm is never entered without its
    notification. *)
Theorem notification_exactly_on_completion :
  forall (t : Trigger) (w : World),
    notifications (fire t w) = notifications w
    /\ (specPhase (current (fire t w)) = WaitingConfirm ->
        specPhase (current w) = WaitingConfirm)
    \/ specPhase (current w) = RunningFocus
       /\ specPhase (current (fire t w)) = WaitingConfirm
       /\ notifications (fire t w) = notifications w ++ [focusComplete]
    \/ specPhase (current w) = RunningBreak
       /\ specPhase (current (fire t w)) = Idle
       /\ notifications (fire t w) = notifications w ++ [breakComplete].
Proof.
  intros t w. remember (current w) as s eqn:Hs.
  destruct (fire_is_a_step t w)
    as [Es _ _ _ En
       |c e0 _ _ _ _ Es _ _ En
       |e _ _ _ Es _ _ En
       |Hr Hp _ _ Es _ _ En
       |e Hr Hp _ _ _ Es _ _ En
       |_ Es _ _ En
       |Hr Hp _ _ _ Es _ _ En];
    try rewrite <- Hs in *.
  - left. split; [exact En|]. now rewrite (current_same _ _ Es), <- Hs.
  - left. split; [exact En|]. rewrite (current_stored _ _ Es). discriminate.
  - left. split; [exact En|]. rewrite (current_stored _ _ Es). discriminate.
  - left. split; [exact En|]. rewrite (current_stored _ _ Es).
    destruct (specPhase_running _ Hr Hp) as [[_ Ph]|[_ Ph]];
      unfold specPhase, pausedState, isPaused; cbn [phase paused];
      rewrite Ph; discriminate.
  - left. split; [exact En|]. rewrite (current_stored _ _ Es).
    destruct (specPhase_paused _ Hr Hp) as [[_ Ph]|[_ Ph]];
      unfold specPhase, resumedState, isPaused; cbn [phase paused];
      rewrite Ph; discriminate.
  - left. split; [exact En|]. rewrite (current_stored _ _ Es). discriminate.
  - right. rewrite (current_stored _ _ Es), En.
    unfold completed, completionNotice.
    destruct (specPhase_running _ Hr Hp) as [[E Ph]|[E Ph]]; rewrite Ph;
      [left | right]; repeat split; assumption.
Qed.

(** ** The configuration during a run *)

Lemma config_kept_while_busy (t : Trigger) (w : World) (c : Config) :
  storedConfig w = Some c ->
  phase (current w) <> IDLE ->
  storedConfig (fire t w) = Some c.
Proof.
  intros Hc Hbusy.
  destruct (fire_is_a_step t w)
    as [_ Ec _ _ _
       |c0 e0 _ _ Hidle _ _ _ _ _
       |e _ _ Ec _ _ _ _
       |_ _ _ Ec _ _ _ _
       |e _ _ _ _ Ec _ _ _ _
       |Ec _ _ _ _
       |_ _ _ _ Ec _ _ _ _];
    try (rewrite Ec; exact Hc); try contradiction.
  all: destruct Ec as [->|[E _]]; [exact Hc | congruence].
Qed.

(** X5. The stored configuration is fixed for the length of a run: in any
    phase other than Idle no entry of the script, whatever it carries,
    changes a stored configuration. *)
Theorem config_is_fixed_during_a_run :
  forall (t : Trigger) (w : World) (c : Config),
    storedConfig w = Some c ->
    phase (current w) <> IDLE ->
    storedConfig (fire t w) = Some c.
Proof. exact config_kept_while_busy. Qed.

Lemma config_is_fixed_during_a_run_witness :
  storedConfig focusWorld = config start6060
  /\ storedConfig
       (fire (OnMessage 5000
                {| type := "start";
                   config := Some {| durationASeconds := JS.Num 1;
                                     durationBSeconds := JS.Num 1 |} |})
          focusWorld)
     = config start6060.
Proof.
  split; [reflexivity|].
  apply config_is_fixed_during_a_run; [reflexivity | discriminate].
Defined.

Lemma run_keeps_config (ts : list Trigger) :
  forall (w : World) (c : Config),
    storedConfig w = Some c ->
    phase (current w) <> IDLE ->
    busy ts w ->
    storedConfig (run ts w) = Some c.
Proof.
  induction ts as [|t ts IH]; intros w c Hc Hbusy Hrun.
  - exact Hc.
  - destruct Hrun as [Hnext Hrest]. cbn.
    apply IH; [now apply config_kept_while_busy | exact Hnext | exact Hrest].
Qed.

Lemma start_accepted (w : World) (now a b : Z) :
  phase (current w) = IDLE -> 1 <= a -> 1 <= b ->
  runState (onMessage now (startWith a b)) w
  = (accepted,
     {| storedConfig := config (startWith a b);
        storedState :=
          Some (runningState RUNNING_A (JS.Num (now + a * 1000)));
        phaseEndAlarm := Some (JS.Num (now + a * 1000));
        heartbeatAlarm := true;
        effects :=
          (effects w
           ++ [ActionUI (runningState RUNNING_A (JS.Num (now + a * 1000)))])
          ++ [StateChanged
                (runningState RUNNING_A (JS.Num (now + a * 1000)))] |}).
Proof.
  intros Hidle Ha Hb. destruct w as [c st al hb ev].
  unfold current, evalState in Hidle. cbn in Hidle.
  unfold onMessage, onStart, startWith, runningState. cbn.
  rewrite Hidle. cbn.
  destruct (Z.ltb_spec a 1); [lia|].
  destruct (Z.ltb_spec b 1); [lia|].
  cbn. destruct hb; reflexivity.
Qed.

Lemma ack_accepted (w : World) (now : Z) (cfg : option Config) :
  phase (current w) = WAITING_A ->
  let e := JS.add (JS.Num now)
             (JS.mul (durationBSeconds (evalState getConfig w))
                (JS.Num 1000)) in
  runState (onMessage now {| type := "ackA"; config := cfg |}) w
  = (accepted,
     {| storedConfig := storedConfig w;
        storedState := Some (runningState RUNNING_B e);
        phaseEndAlarm := Some e;
        heartbeatAlarm := true;
        effects :=
          (effects w ++ [ActionUI (runningState RUNNING_B e)])
          ++ [StateChanged (runningState RUNNING_B e)] |}).
Proof.
  intros Hw. destruct w as [c st al hb ev].
  unfold current, evalState in Hw. cbn in Hw. enter. rewrite Hw. cbn.
  destruct hb; reflexivity.
Qed.

Lemma ack_in_waiting (w : World) (now : Z) (cfg : option Config) :
  phase (current w) = WAITING_A ->
  storedState (execState (onMessage now {| type := "ackA"; config := cfg |}) w)
  = Some {| phase := RUNNING_B;
            endTimestamp :=
              JS.add (JS.Num now)
                (JS.mul (durationBSeconds (evalState getConfig w))
                   (JS.Num 1000));
            paused := Some false;
            remainingSeconds := JS.Null |}.
Proof.
  intros Hw. unfold execState. now rewrite (ack_accepted w now cfg Hw).
Qed.

Lemma start_keeps_config (w : World) (now : Z) (c : Config) :
  phase (current w) = IDLE ->
  validDurations (Some c) = true ->
  let started :=
    execState (onMessage now {| type := "start"; config := Some c |}) w in
  storedConfig started = Some c /\ phase (current started) = RUNNING_A.
Proof.
  intros Hidle Hv started. subst started.
  destruct (valid_is_validConfig c Hv) as (a & b & -> & Ha & Hb).
  change {| type := "start";
            config := Some {| durationASeconds := JS.Num a;
                              durationBSeconds := JS.Num b |} |}
    with (startWith a b).
  unfold execState. rewrite start_accepted by assumption.
  split; reflexivity.
Qed.

(** X6. The break lasts what the start request said.  After a start
    accepted in Idle with the configuration [c], follow any entries of
    the script that do not return to Idle; if the phase is then
    WaitingConfirm, an acknowledgement at [now] stores RunningBreak
    ending at [now + durationBSeconds * 1000], computed by the script
    from the duration of [c].  For a whole duration [dBreak], a clock
    reading at or after the epoch and a sum within
    [Number.MAX_SAFE_INTEGER] this is the number [now + dBreak * 1000]. *)
Theorem break_lasts_the_started_duration :
  forall (w : World) (t0 now : Z) (c : Config) (ts : list Trigger)
         (cfg : option Config),
    phase (current w) = IDLE ->
    validDurations (Some c) = true ->
    let started :=
      execState (onMessage t0 {| type := "start"; config := Some c |}) w in
    busy ts started ->
    specPhase (current (run ts started)) = WaitingConfirm ->
    let acknowledged :=
      execState (onMessage now {| type := "ackA"; config := cfg |})
        (run ts started) in
    storedState acknowledged
    = Some {| phase := RUNNING_B;
              endTimestamp :=
                JS.add (JS.Num now)
                  (JS.mul (durationBSeconds c) (JS.Num 1000));
              paused := Some false;
              remainingSeconds := JS.Null |}
    /\ forall dBreak : Z,
         durationBSeconds c = JS.Num dBreak ->
         0 <= now ->
         now + dBreak * 1000 <= JS.MAX_SAFE_INTEGER ->
         endTimestamp (current acknowledged) = JS.Num (now + dBreak * 1000).
Proof.
  intros w t0 now c ts cfg Hidle Hv started Hbusy Hwait acknowledged.
  destruct (start_keeps_config w t0 c Hidle Hv) as [Hc0 Hp0].
  fold started in Hc0, Hp0.
  assert (Hc : storedConfig (run ts started) = Some c).
  { apply run_keeps_config; [exact Hc0 | | exact Hbusy].
    rewrite Hp0. discriminate. }
  assert (Hph : phase (current (run ts started)) = WAITING_A).
  { unfold specPhase in Hwait.
    destruct (phase (current (run ts started))),
      (isPaused (current (run ts started)));
      try discriminate; reflexivity. }
  assert (Hg : evalState getConfig (run ts started) = c).
  { destruct (run ts started) as [c' st al hb ev]. cbn in Hc. subst c'.
    reflexivity. }
  assert (E : storedState acknowledged
              = Some {| phase := RUNNING_B;
                        endTimestamp :=
                          JS.add (JS.Num now)
                            (JS.mul (durationBSeconds c) (JS.Num 1000));
                        paused := Some false;
                        remainingSeconds := JS.Null |}).
  { unfold acknowledged. rewrite (ack_in_waiting _ now cfg Hph), Hg.
    reflexivity. }
  split; [exact E|].
  intros dBreak Hd _ _. rewrite (current_stored _ _ E). cbn. rewrite Hd.
  reflexivity.
Qed.

Lemma break_lasts_the_started_duration_witness :
  72000 + 300 * 1000 <= JS.MAX_SAFE_INTEGER
  /\ endTimestamp
       (current
          (execState (onMessage 72000 (say "ackA"))
             (run [OnMessage 20000 (say "pause");
                   OnMessage 25000 (say "resume");
                   OnAlarm 61000 ALARM_ID; OnAlarm 70000 ALARM_ID]
                (execState (onMessage 1000 (startWith 60 300))
                   initialWorld))))
     = JS.Num 372000.
Proof.
  split; [unfold JS.MAX_SAFE_INTEGER; lia|].
  assert (B : busy [OnMessage 20000 (say "pause");
                    OnMessage 25000 (say "resume");
                    OnAlarm 61000 ALARM_ID; OnAlarm 70000 ALARM_ID]
                (execState (onMessage 1000 (startWith 60 300))
                   initialWorld))
    by (cbn; repeat split; discriminate).
  exact (proj2 (break_lasts_the_started_duration initialWorld 1000 72000
                  {| durationASeconds := JS.Num 60;
                     durationBSeconds := JS.Num 300 |}
                  [OnMessage 20000 (say "pause");
                   OnMessage 25000 (say "resume");
                   OnAlarm 61000 ALARM_ID; OnAlarm 70000 ALARM_ID] None
                  eq_refl eq_refl B eq_refl)
           300 eq_refl ltac:(lia)
           ltac:(unfold JS.MAX_SAFE_INTEGER; lia)).
Defined.

(** ** Completion only when due *)

Lemma reenter_early (w : World) (s : TimerState) (e now : Z) (r : Reentry) :
  storedState w = Some s ->
  specPhase s = RunningFocus \/ specPhase s = RunningBreak ->
  endTimestamp s = JS.Num e ->
  e <> 0 ->
  now < e ->
  storedState (execState (reenter r now) w) = Some s
  /\ notifications (execState (reenter r now) w) = notifications w
  /\ phaseEndAlarm (execState (reenter r now) w)
     = match r with
       | Heartbeat => phaseEndAlarm w
       | _ => Some (JS.Num e)
       end.
Proof.
  intros Hs Hrun He Hnz Hlt.
  apply running_inv in Hrun. destruct Hrun as [Hp Hph].
  destruct w as [c st al hb ev], s as [p en pa rs].
  cbn in Hs, He. subst st en.
  unfold isPaused in Hp. cbn in Hp, Hph.
  unfold notifications.
  assert (Ht : (e =? 0) = false) by now apply Z.eqb_neq.
  assert (Hg : (e <=? now) = false) by now apply Z.leb_gt.
  destruct pa as [[|]|]; try discriminate;
    destruct r, Hph; subst p; enter; destruct c, hb; cbn;
    repeat (progress (rewrite ?Ht, ?Hg); cbn);
    rewrite ?filter_app; cbn; rewrite ?app_nil_r; auto.
Qed.

(** X7. The completion check never acts early.  For a running, unpaused
    phase with end [e], a re-entry of the controller at [now] (start of
    the process, heartbeat, completion alarm) changes the phase exactly
    when [e <= now]; before that it leaves the stored state as it is and
    requests no notification, and the start of the process and an early
    completion alarm set the alarm for [e] again. *)
Theorem completion_only_when_due :
  forall (w : World) (s : TimerState) (e now : Z) (r : Reentry),
    storedState w = Some s ->
    specPhase s = RunningFocus \/ specPhase s = RunningBreak ->
    endTimestamp s = JS.Num e ->
    e <> 0 ->
    let after := execState (reenter r now) w in
    (now < e ->
       storedState after = Some s
       /\ notifications after = notifications w
       /\ (r <> Heartbeat -> phaseEndAlarm after = Some (JS.Num e)))
    /\ (specPhase (current after) <> specPhase s <-> e <= now).
Proof.
  intros w s e now r Hs Hrun He Hnz after.
  assert (Early : now < e ->
            storedState after = Some s
            /\ notifications after = notifications w
            /\ (r <> Heartbeat -> phaseEndAlarm after = Some (JS.Num e))).
  { intros Hlt.
    destruct (reenter_early w s e now r Hs Hrun He Hnz Hlt) as (A & B & C).
    repeat split; try assumption.
    intros Hr. fold after in C. rewrite C.
    destruct r; [reflexivity | contradiction | reflexivity]. }
  split; [exact Early|]. split.
  - intros Hchanged. destruct (Z.le_gt_cases e now) as [Hle|Hlt]; [exact Hle|].
    destruct (Early Hlt) as (A & _). exfalso. apply Hchanged.
    now rewrite (current_stored _ _ A).
  - intros Hle.
    destruct (reenter_overdue w s e now r Hs Hrun He Hnz Hle) as [A _].
    fold after in A. rewrite (current_stored _ _ A).
    unfold completed. apply running_inv in Hrun.
    destruct Hrun as [Hp [Hph|Hph]]; unfold specPhase; rewrite Hph, Hp;
      discriminate.
Qed.

Lemma completion_only_when_due_witness :
  storedState (execState (reenter CompletionAlarm 60999) focusWorld)
  = storedState focusWorld
  /\ phaseEndAlarm (execState (reenter CompletionAlarm 60999) focusWorld)
     = Some (JS.Num 61000).
Proof.
  destruct (completion_only_when_due focusWorld _ 61000 60999 CompletionAlarm
              eq_refl (or_introl eq_refl) eq_refl ltac:(discriminate))
    as [Early _].
  destruct (Early ltac:(lia)) as (A & _ & C).
  split; [exact A | apply C; discriminate].
Defined.

(** ** The two ways to acknowledge *)

(** X8. The first button of the notification and the [ackA] message are
    the same operation: in every world both leave exactly the same world
    behind (only the message has an answer); any other button of a
    notification changes nothing. *)
Theorem button_is_acknowledge :
  forall (w : World) (now : Z) (cfg : option Config),
    execState (onButtonClicked now 0) w
    = execState (onMessage now {| type := "ackA"; config := cfg |}) w
    /\ (forall i : Z, i <> 0 -> execState (onButtonClicked now i) w = w).
Proof.
  intros [c [[p en pa rs]|] al hb ev] now cfg; split.
  all: try (intros i Hi; apply Z.eqb_neq in Hi).
  all: enter; rewrite ?Hi; try destruct p; cbn; rewrite ?Hi; cbn;
    rewrite ?andb_false_r; try destruct hb; reflexivity.
Qed.

Lemma button_is_acknowledge_witness :
  execState (onButtonClicked 62000 0) waitingWorld = breakWorld
  /\ execState (onButtonClicked 62000 1) waitingWorld = waitingWorld.
Proof.
  destruct (button_is_acknowledge waitingWorld 62000 None) as [A B].
  split; [exact A | apply B; lia].
Defined.

(** ** Guards as phase tests *)

Lemma reachable_pause_accepted (w : World) (now : Z) (cfg : option Config) :
  reachableAfterEpoch w ->
  specPhase (current w) = RunningFocus
  \/ specPhase (current w) = RunningBreak ->
  evalState (onMessage now {| type := "pause"; config := cfg |}) w = accepted.
Proof.
  intros Hw Hrun. destruct (reachableAfterEpoch_numbersOk w Hw) as [_ Hn].
  assert (exists e : Z, endTimestamp (current w) = JS.Num e /\ 1000 <= e)
    as (e & He & Hle).
  { destruct Hrun as [E|E]; rewrite E in Hn;
      destruct Hn as (e & He & Hle & _); now exists e. }
  unfold evalState.
  rewrite (pause_running w (current w) e eq_refl Hrun He ltac:(lia)).
  reflexivity.
Qed.

Lemma reachable_resume_accepted (w : World) (now : Z) (cfg : option Config) :
  reachableAfterEpoch w ->
  specPhase (current w) = PausedFocus
  \/ specPhase (current w) = PausedBreak ->
  evalState (onMessage now {| type := "resume"; config := cfg |}) w = accepted.
Proof.
  intros Hw Hpau. destruct (reachableAfterEpoch_numbersOk w Hw) as [_ Hn].
  assert (exists r : Z, remainingSeconds (current w) = JS.Num r /\ 1 <= r)
    as (r & Hr & Hle).
  { destruct Hpau as [E|E]; rewrite E in Hn;
      destruct Hn as (r & Hr & Hle & _); now exists r. }
  unfold evalState.
  rewrite (resume_paused w (current w) r now cfg eq_refl Hpau Hr ltac:(lia)).
  reflexivity.
Qed.

(** X9. In every world reached with clock readings at or after the epoch
    the guards of pause and resume are tests of the phase alone: a pause
    request is accepted exactly in RunningFocus and RunningBreak and
    otherwise answered "Nothing to pause."; a resume request is accepted
    exactly in PausedFocus and PausedBreak and otherwise answered "Nothing
    to resume.". *)
Theorem guards_are_phase_tests :
  forall (w : World) (now : Z) (cfg : option Config),
    reachableAfterEpoch w ->
    let pause := {| type := "pause"; config := cfg |} in
    let resume := {| type := "resume"; config := cfg |} in
    (specPhase (current w) = RunningFocus
     \/ specPhase (current w) = RunningBreak ->
     evalState (onMessage now pause) w = accepted)
    /\ (~ (specPhase (current w) = RunningFocus
           \/ specPhase (current w) = RunningBreak) ->
        runState (onMessage now pause) w = (rejected "Nothing to pause.", w))
    /\ (specPhase (current w) = PausedFocus
        \/ specPhase (current w) = PausedBreak ->
        evalState (onMessage now resume) w = accepted)
    /\ (~ (specPhase (current w) = PausedFocus
           \/ specPhase (current w) = PausedBreak) ->
        runState (onMessage now resume) w
        = (rejected "Nothing to resume.", w)).
Proof.
  intros w now cfg Hw pause resume.
  split; [|split; [|split]].
  - now apply reachable_pause_accepted.
  - intros Hno. apply rejection_answer. apply NothingToPause.
    intros [Hrun _]. now apply Hno.
  - now apply reachable_resume_accepted.
  - intros Hno. apply rejection_answer. apply NothingToResume.
    intros [Hpau _]. now apply Hno.
Qed.

Lemma guards_are_phase_tests_witness :
  reachableAfterEpoch pausedWorld
  /\ evalState (onMessage 40000 (say "resume")) pausedWorld = accepted
  /\ runState (onMessage 40000 (say "pause")) pausedWorld
     = (rejected "Nothing to pause.", pausedWorld).
Proof.
  pose proof (guards_are_phase_tests pausedWorld 40000 None
                reachableAfterEpoch_pausedWorld) as H.
  cbv zeta in H. destruct H as (_ & P & R & _).
  split; [exact reachableAfterEpoch_pausedWorld|]. split.
  - exact (R (or_introl eq_refl)).
  - apply P. intros [E|E]; discriminate E.
Defined.

(** ** A whole cycle *)

(** X10. A whole cycle ends where it began.  From Idle, a start at [t0]
    with whole durations [dFocus, dBreak >= 1], any re-entry at or after
    the end of the focus phase, an acknowledgement at [t2] and any
    re-entry at or after the end of the break leave the default state
    stored, having gone through RunningFocus, WaitingConfirm and
    RunningBreak (ending at [t2 + dBreak * 1000]) and having requested
    exactly the two notifications, focus first. *)
Theorem full_cycle_returns_to_idle :
  forall (w : World) (t0 t1 t2 t3 dFocus dBreak : Z) (r1 r2 : Reentry)
         (cfg : option Config),
    phase (current w) = IDLE ->
    1 <= dFocus -> 1 <= dBreak ->
    0 <= t0 -> 0 <= t2 ->
    t0 + dFocus * 1000 <= t1 ->
    t2 + dBreak * 1000 <= t3 ->
    let w1 := execState (onMessage t0 (startWith dFocus dBreak)) w in
    let w2 := execState (reenter r1 t1) w1 in
    let w3 := execState (onMessage t2 {| type := "ackA"; config := cfg |}) w2 in
    let w4 := execState (reenter r2 t3) w3 in
    specPhase (current w1) = RunningFocus
    /\ specPhase (current w2) = WaitingConfirm
    /\ storedState w3
       = Some {| phase := RUNNING_B;
                 endTimestamp := JS.Num (t2 + dBreak * 1000);
                 paused := Some false; remainingSeconds := JS.Null |}
    /\ storedState w4 = Some DEFAULT_STATE
    /\ notifications w4 = notifications w ++ [focusComplete; breakComplete].
Proof.
  intros w t0 t1 t2 t3 a b r1 r2 cfg Hidle Ha Hb H0 H2 H1 H3 w1 w2 w3 w4.
  pose proof (start_accepted w t0 a b Hidle Ha Hb) as S.
  assert (S1 : storedState w1
               = Some (runningState RUNNING_A (JS.Num (t0 + a * 1000))))
    by (unfold w1, execState; now rewrite S).
  assert (C1 : storedConfig w1 = config (startWith a b))
    by (unfold w1, execState; now rewrite S).
  assert (N1 : notifications w1 = notifications w).
  { unfold w1, execState. rewrite S. unfold notifications. cbn [snd effects].
    rewrite !filter_app. cbn. now rewrite !app_nil_r. }
  destruct (reenter_overdue w1 _ (t0 + a * 1000) t1 r1 S1
              (or_introl eq_refl) eq_refl ltac:(lia) H1) as [S2 N2].
  fold w2 in S2, N2. cbn in S2, N2.
  assert (C2 : storedConfig w2 = config (startWith a b)).
  { unfold w2. rewrite reenter_as_trigger.
    apply config_kept_while_busy; [exact C1|].
    rewrite (current_stored _ _ S1). discriminate. }
  assert (P2 : phase (current w2) = WAITING_A)
    by now rewrite (current_stored _ _ S2).
  pose proof (ack_accepted w2 t2 cfg P2) as A. cbv zeta in A.
  assert (G : evalState getConfig w2
              = {| durationASeconds := JS.Num a;
                   durationBSeconds := JS.Num b |}).
  { destruct w2 as [c st al hb ev]. cbn in C2. subst c. reflexivity. }
  rewrite G in A. cbn [durationBSeconds] in A. rewrite add_mul_Num in A.
  assert (S3 : storedState w3
               = Some (runningState RUNNING_B (JS.Num (t2 + b * 1000))))
    by (unfold w3, execState; now rewrite A).
  assert (N3 : notifications w3 = notifications w2).
  { unfold w3, execState. rewrite A. unfold notifications. cbn [snd effects].
    rewrite !filter_app. cbn. now rewrite !app_nil_r. }
  destruct (reenter_overdue w3 _ (t2 + b * 1000) t3 r2 S3
              (or_intror eq_refl) eq_refl ltac:(lia) H3) as [S4 N4].
  fold w4 in S4, N4. cbn in S4, N4.
  split; [now rewrite (current_stored _ _ S1)|].
  split; [now rewrite (current_stored _ _ S2)|].
  split; [exact S3|].
  split; [exact S4|].
  rewrite N4, N3, N2, N1, <- app_assoc. reflexivity.
Qed.

Lemma full_cycle_returns_to_idle_witness :
  storedState
    (execState (reenter Heartbeat 400000)
       (execState (onMessage 70000 (say "ackA"))
          (execState (reenter ProcessStart 65000)
             (execState (onMessage 1000 (startWith 60 300)) initialWorld))))
  = Some DEFAULT_STATE.
Proof.
  exact (proj1 (proj2 (proj2 (proj2
           (full_cycle_returns_to_idle initialWorld 1000 65000 70000 400000
              60 300 ProcessStart Heartbeat None eq_refl
              ltac:(lia) ltac:(lia) ltac:(lia) ltac:(lia)
              ltac:(lia) ltac:(lia)))))).
Defined.

(** * More properties of the popup *)

(** ** What the popup offers *)

Lemma isRunning_iff (s : TimerState) :
  isRunning s = true <->
  specPhase s = RunningFocus \/ specPhase s = RunningBreak
  \/ specPhase s = PausedFocus \/ specPhase s = PausedBreak.
Proof.
  unfold specPhase, isRunning.
  destruct (phase s), (isPaused s); cbn; split; auto; try discriminate;
    intros [H|[H|[H|H]]]; discriminate.
Qed.

Lemma not_running_iff (s : TimerState) :
  isRunning s = false <-> specPhase s = Idle \/ specPhase s = WaitingConfirm.
Proof.
  unfold specPhase, isRunning.
  destruct (phase s), (isPaused s); cbn; split; auto; try discriminate;
    intros [H|H]; discriminate.
Qed.

Lemma idle_iff (s : TimerState) :
  Phase_eqb (phase s) IDLE = true <-> specPhase s = Idle.
Proof.
  unfold specPhase.
  destruct (phase s), (isPaused s); cbn; split; auto; discriminate.
Qed.

Lemma specPhase_isPaused (s : TimerState) :
  (specPhase s = RunningFocus \/ specPhase s = RunningBreak ->
   isPaused s = false)
  /\ (specPhase s = PausedFocus \/ specPhase s = PausedBreak ->
      isPaused s = true).
Proof.
  unfold specPhase.
  destruct (phase s), (isPaused s); split; intros [H|H];
    try discriminate; reflexivity.
Qed.

Lemma not_running_refused (w : World) (t : Z) :
  isRunning (current w) = false ->
  runState (onMessage t (say "pause")) w = (rejected "Nothing to pause.", w)
  /\ runState (onMessage t (say "resume")) w
     = (rejected "Nothing to resume.", w).
Proof.
  intros Hr. apply not_running_iff in Hr. split; apply rejection_answer.
  - apply NothingToPause. intros [[H|H] _]; destruct Hr as [E|E];
      rewrite E in H; discriminate.
  - apply NothingToResume. intros [[H|H] _]; destruct Hr as [E|E];
      rewrite E in H; discriminate.
Qed.

(** X11. The popup offers what the background accepts.  Rendered from any
    world reached with clock readings at or after the epoch: the pause
    button is shown exactly in the running and paused phases, and the
    request its click sends (pause when running, resume when paused) is
    accepted; when it is hidden both requests would be refused; the start
    button is shown exactly in Idle and WaitingConfirm, and in
    WaitingConfirm its click sends an acknowledgement that is accepted;
    the duration inputs can be edited exactly in Idle. *)
Theorem popup_offers_what_is_accepted :
  forall (parseFloat : string -> Popup.number) (w : World)
         (v : PopupView.View) (now t : Z) (a b : string),
    reachableAfterEpoch w ->
    let v' := PopupView.loadAndRender now w v in
    let s := current w in
    (PopupView.pauseHidden v' = false <->
       specPhase s = RunningFocus \/ specPhase s = RunningBreak
       \/ specPhase s = PausedFocus \/ specPhase s = PausedBreak)
    /\ (PopupView.pauseHidden v' = false ->
        evalState (onMessage t (PopupView.onPauseClick v')) w = accepted)
    /\ (PopupView.pauseHidden v' = true ->
        ok (evalState (onMessage t (say "pause")) w) = false
        /\ ok (evalState (onMessage t (say "resume")) w) = false)
    /\ (PopupView.startHidden v' = false <->
          specPhase s = Idle \/ specPhase s = WaitingConfirm)
    /\ (specPhase s = WaitingConfirm ->
        exists m : Message,
          Popup.sent
            (Popup.onStartClick parseFloat
               (phase (PopupView.currentState v')) a b) = Some m
          /\ evalState (onMessage t m) w = accepted)
    /\ (PopupView.timerADisabled v' = false <-> specPhase s = Idle)
    /\ PopupView.timerBDisabled v' = PopupView.timerADisabled v'.
Proof.
  intros parseFloat w v now t a b Hw v' s.
  assert (Hview :
            PopupView.currentState v' = s
            /\ PopupView.pauseHidden v' = negb (isRunning s)
            /\ PopupView.startHidden v' = isRunning s
            /\ PopupView.timerADisabled v' = negb (Phase_eqb (phase s) IDLE)
            /\ PopupView.timerBDisabled v' = PopupView.timerADisabled v').
  { unfold v', PopupView.loadAndRender, PopupView.render, isRunning.
    fold s. destruct (phase s); repeat split; reflexivity. }
  destruct Hview as (Hcur & Hp & Hs & Ha & Hb).
  rewrite Hp, Hs, Hb, Ha, Hcur. clearbody v'.
  split; [rewrite negb_false_iff; apply isRunning_iff|].
  split.
  { rewrite negb_false_iff. intros Hr. apply isRunning_iff in Hr.
    unfold PopupView.onPauseClick. rewrite Hcur.
    destruct (specPhase_isPaused s) as [Hrun Hpau].
    destruct Hr as [E|[E|[E|E]]].
    - rewrite (Hrun (or_introl E)).
      apply reachable_pause_accepted; [exact Hw | now left].
    - rewrite (Hrun (or_intror E)).
      apply reachable_pause_accepted; [exact Hw | now right].
    - rewrite (Hpau (or_introl E)).
      apply reachable_resume_accepted; [exact Hw | now left].
    - rewrite (Hpau (or_intror E)).
      apply reachable_resume_accepted; [exact Hw | now right]. }
  split.
  { rewrite negb_true_iff. intros Hr.
    destruct (not_running_refused w t Hr) as [P R].
    unfold evalState. rewrite P, R. split; reflexivity. }
  split; [apply not_running_iff|].
  split.
  { intros E.
    assert (Ph : phase s = WAITING_A).
    { unfold specPhase in E. destruct (phase s), (isPaused s);
        try discriminate; reflexivity. }
    rewrite Ph. eexists. split; [reflexivity|].
    unfold evalState. now rewrite (ack_accepted w t None Ph). }
  split; [rewrite negb_false_iff; apply idle_iff | reflexivity].
Qed.

Lemma popup_offers_what_is_accepted_witness :
  reachableAfterEpoch pausedWorld
  /\ PopupView.pauseText (PopupView.loadAndRender 35000 pausedWorld blankView)
     = "▶"
  /\ evalState
       (onMessage 40000
          (PopupView.onPauseClick
             (PopupView.loadAndRender 35000 pausedWorld blankView)))
       pausedWorld
     = accepted.
Proof.
  split; [exact reachableAfterEpoch_pausedWorld|]. split; [reflexivity|].
  pose proof (popup_offers_what_is_accepted parseSample pausedWorld blankView
                35000 40000 "" "" reachableAfterEpoch_pausedWorld) as H.
  cbv zeta in H. destruct H as (_ & P & _).
  apply P. reflexivity.
Defined.

(** ** The countdown across a pause *)

Lemma countdown_running (now e : Z) (s : TimerState) :
  isPaused s = false ->
  endTimestamp s = JS.Num e ->
  e <> 0 ->
  PopupView.updateCountdown now s
  = PopupView.formatSeconds
      (JS.Num (Z.max 0 (- ((- (e + - now)) / 1000)))).
Proof.
  intros Hp He Hnz. unfold PopupView.updateCountdown.
  rewrite Hp, He. cbn [andb JS.truthy].
  destruct (Z.eqb_spec e 0); [contradiction | reflexivity].
Qed.

Lemma countdown_paused (now r : Z) (s : TimerState) :
  isPaused s = true ->
  remainingSeconds s = JS.Num r ->
  r <> 0 ->
  PopupView.updateCountdown now s
  = PopupView.formatSeconds (JS.Num (Z.max 0 r)).
Proof.
  intros Hp Hr Hnz. unfold PopupView.updateCountdown.
  rewrite Hp, Hr. cbn [andb JS.truthy].
  destruct (Z.eqb_spec r 0); [contradiction | reflexivity].
Qed.

(** X12. The countdown does not jump at a pause.  For a running phase
    paused at [t1] before its end and resumed at [t2], the time the popup
    shows while paused, and the time it shows at the instant of the
    resume, are the time it showed at the instant of the pause.  For a
    phase paused at or after its end the popup showed "00:00" and shows
    "00:01" from the pause on.  The end and the two clock readings are at
    or after the epoch and small enough for the differences, products
    and sums of the pause, the resume and the countdown to be within
    [Number.MAX_SAFE_INTEGER], where they are exact and where [String]
    writes every digit. *)
Theorem countdown_is_kept_across_a_pause :
  forall (w : World) (s : TimerState) (e t1 t2 t : Z)
         (cfg1 cfg2 : option Config),
    current w = s ->
    specPhase s = RunningFocus \/ specPhase s = RunningBreak ->
    endTimestamp s = JS.Num e ->
    0 < e ->
    0 <= t1 <= JS.MAX_SAFE_INTEGER ->
    0 <= t2 ->
    t2 + e + 1000 <= JS.MAX_SAFE_INTEGER ->
    let w1 :=
      execState (onMessage t1 {| type := "pause"; config := cfg1 |}) w in
    let w2 :=
      execState (onMessage t2 {| type := "resume"; config := cfg2 |}) w1 in
    (t1 < e ->
       PopupView.updateCountdown t (current w1)
       = PopupView.updateCountdown t1 s
       /\ PopupView.updateCountdown t2 (current w2)
          = PopupView.updateCountdown t1 s)
    /\ (e <= t1 ->
        PopupView.updateCountdown t1 s = "00:00"
        /\ PopupView.updateCountdown t (current w1) = "00:01"
        /\ PopupView.updateCountdown t2 (current w2) = "00:01").
Proof.
  intros w s e t1 t2 t cfg1 cfg2 Hs Hrun He Hpos _ H2 _ w1 w2.
  assert (Hnz : e <> 0) by lia.
  pose proof (pause_then_resume w s e Hs Hrun He Hnz t1 t2 cfg1 cfg2) as H.
  cbv zeta in H. destruct H as (Hw1 & _ & _ & R).
  fold w1 in Hw1, R.
  assert (Hw2 : current w2
                = resumedState
                    (pausedState s (JS.Num (pausedSeconds e t1)))
                    (JS.Num (t2 + pausedSeconds e t1 * 1000)))
    by (unfold w2, execState; rewrite R; reflexivity).
  pose proof (pausedSeconds_ge_1 e t1) as Hr.
  destruct (running_inv s Hrun) as [Hp _].
  assert (Before := countdown_running t1 e s Hp He Hnz).
  assert (While : PopupView.updateCountdown t (current w1)
                  = PopupView.formatSeconds
                      (JS.Num (Z.max 0 (pausedSeconds e t1)))).
  { rewrite Hw1. apply countdown_paused; [reflexivity | reflexivity | lia]. }
  assert (After : PopupView.updateCountdown t2 (current w2)
                  = PopupView.formatSeconds
                      (JS.Num (Z.max 0 (pausedSeconds e t1)))).
  { rewrite Hw2.
    rewrite (countdown_running t2 (t2 + pausedSeconds e t1 * 1000));
      [|reflexivity | reflexivity | lia].
    do 2 f_equal.
    pose proof (ceil_1000_bounds
                  (t2 + pausedSeconds e t1 * 1000 + - t2)). lia. }
  rewrite Before, While, After. split.
  - intros Hlt. pose proof (pausedSeconds_ahead e t1 Hlt) as B.
    assert (E : Z.max 0 (pausedSeconds e t1)
                = Z.max 0 (- (- (e + - t1) / 1000))).
    { unfold pausedSeconds in *.
      pose proof (ceil_1000_bounds (e + - t1)). lia. }
    rewrite E. split; reflexivity.
  - intros Hle. rewrite (pausedSeconds_overdue e t1 Hle).
    assert (E : Z.max 0 (- (- (e + - t1) / 1000)) = 0).
    { pose proof (ceil_1000_bounds (e + - t1)). lia. }
    rewrite E. repeat split; reflexivity.
Qed.

Lemma countdown_is_kept_across_a_pause_witness :
  PopupView.updateCountdown 30500 (current focusWorld) = "00:31"
  /\ 40000 + 61000 + 1000 <= JS.MAX_SAFE_INTEGER
  /\ PopupView.updateCountdown 50000
       (current (execState (onMessage 30500 (say "pause")) focusWorld))
     = PopupView.updateCountdown 30500 (current focusWorld).
Proof.
  split; [reflexivity|].
  split; [unfold JS.MAX_SAFE_INTEGER; lia|].
  pose proof (countdown_is_kept_across_a_pause focusWorld _ 61000 30500
                40000 50000 None None eq_refl (or_introl eq_refl) eq_refl
                ltac:(lia) ltac:(unfold JS.MAX_SAFE_INTEGER; lia)
                ltac:(lia) ltac:(unfold JS.MAX_SAFE_INTEGER; lia)) as H.
  cbv zeta in H. destruct H as [Early _].
  exact (proj1 (Early ltac:(lia))).
Defined.

(** ** Minutes and seconds *)

Lemma Qfloor_half_up (p : Z) : Qfloor (inject_Z p * 60 + (1 # 2)) = p * 60.
Proof.
  unfold Qfloor, inject_Z, Qmult, Qplus. cbn [Qnum Qden].
  change (Z.pos (1 * 1)) with 1. change (Z.pos (1 * 1 * 2)) with 2.
  symmetry. apply (Z.div_unique _ _ _ 1); lia.
Qed.

Lemma secondsToMinutes_whole (m : Z) :
  1 <= m -> PopupView.secondsToMinutes (JS.Num (m * 60)) = JS.Num m.
Proof.
  intros Hm.
  change (PopupView.secondsToMinutes (JS.Num (m * 60)))
    with (JS.Num (Z.max 1 ((2 * (m * 60) + 60) / 120))).
  assert (E : (2 * (m * 60) + 60) / 120 = m)
    by (symmetry; apply (Z.div_unique _ _ _ 60); lia).
  rewrite E. f_equal. lia.
Qed.

Lemma render_inputs (now : Z) (s : TimerState) (c : Config)
    (v : PopupView.View) :
  PopupView.timerAValue (PopupView.render now s c v)
  = PopupView.secondsToMinutes (durationASeconds c)
  /\ PopupView.timerBValue (PopupView.render now s c v)
     = PopupView.secondsToMinutes (durationBSeconds c).
Proof.
  unfold PopupView.render. destruct (phase s); split; reflexivity.
Qed.

(** X13. Whole minutes come back as typed.  With a whole number of minutes
    of at least one in each input, a click on the start button in Idle
    sends a start request, and [render] shows the configuration it
    carries as the same numbers of minutes in the two inputs -- except for
    the focus input 333, whose 5 seconds are shown as 1 minute.  The
    seconds, sixty times the minutes, are within
    [Number.MAX_SAFE_INTEGER], where the product of [minutesToSeconds]
    and the quotient of [secondsToMinutes] are exact. *)
Theorem whole_minutes_are_shown_again :
  forall (parseFloat : string -> Popup.number) (a b : string) (m n : Z),
    parseFloat a = Popup.Finite (inject_Z m) ->
    parseFloat b = Popup.Finite (inject_Z n) ->
    1 <= m ->
    1 <= n ->
    m * 60 <= JS.MAX_SAFE_INTEGER ->
    n * 60 <= JS.MAX_SAFE_INTEGER ->
    exists c : Config,
      Popup.sent (Popup.onStartClick parseFloat IDLE a b)
      = Some {| type := "start"; config := Some c |}
      /\ forall (now : Z) (s : TimerState) (v : PopupView.View),
           PopupView.timerAValue (PopupView.render now s c v)
           = JS.Num (if m =? 333 then 1 else m)
           /\ PopupView.timerBValue (PopupView.render now s c v) = JS.Num n.
Proof.
  intros parseFloat a b m n HA HB Hm Hn _ _.
  assert (Pos : forall k : Z, 1 <= k -> Qle_bool (inject_Z k) 0 = false).
  { intros k Hk. destruct (Qle_bool (inject_Z k) 0) eqn:E; [|reflexivity].
    apply Qle_bool_iff in E. unfold Qle in E. cbn in E. lia. }
  unfold Popup.onStartClick, Popup.clampMinutes. rewrite HA, HB.
  rewrite (Pos m Hm), (Pos n Hn). eexists. split; [reflexivity|].
  intros now s v.
  destruct (render_inputs now s
              {| durationASeconds :=
                   if Qeq_bool (inject_Z m) 333 then JS.Num 5
                   else JS.Num (Qfloor (inject_Z m * 60 + (1 # 2)));
                 durationBSeconds :=
                   JS.Num (Qfloor (inject_Z n * 60 + (1 # 2))) |} v)
    as [RA RB].
  cbn [Popup.is333 Popup.minutesToSeconds].
  rewrite RA, RB.
  cbn [durationASeconds durationBSeconds Popup.minutesToSeconds Popup.is333].
  rewrite !Qfloor_half_up. split; [|now apply secondsToMinutes_whole].
  assert (E : Qeq_bool (inject_Z m) 333 = (m =? 333)).
  { unfold Qeq_bool, inject_Z. cbn [Qnum Qden]. now rewrite !Z.mul_1_r. }
  rewrite E. destruct (m =? 333); [reflexivity|].
  now apply secondsToMinutes_whole.
Qed.

Lemma whole_minutes_are_shown_again_witness :
  exists c : Config,
    Popup.sent (Popup.onStartClick parseMore IDLE "333" "25")
    = Some {| type := "start"; config := Some c |}
    /\ PopupView.timerAValue (PopupView.render 0 DEFAULT_STATE c blankView)
       = JS.Num 1
    /\ PopupView.timerBValue (PopupView.render 0 DEFAULT_STATE c blankView)
       = JS.Num 25.
Proof.
  destruct (whole_minutes_are_shown_again parseMore "333" "25" 333 25
              eq_refl eq_refl ltac:(lia) ltac:(lia)
              ltac:(unfold JS.MAX_SAFE_INTEGER; lia)
              ltac:(unfold JS.MAX_SAFE_INTEGER; lia)) as (c & S & R).
  exists c. split; [exact S|]. exact (R 0 DEFAULT_STATE blankView).
Defined.

(** ** The two checks of the durations *)

Lemma one_le_Qfloor (y : Q) : 1 <= Qfloor y <-> (1 <= y)%Q.
Proof.
  split.
  - intros H. apply Qle_trans with (inject_Z (Qfloor y)).
    + change 1%Q with (inject_Z 1). now rewrite <- Zle_Qle.
    + apply Qfloor_le.
  - intros H. destruct (Z_lt_le_dec (Qfloor y) 1) as [Hlt|Hle]; [|exact Hle].
    exfalso. pose proof (Qlt_floor y) as L.
    assert (inject_Z (Qfloor y + 1) <= 1)%Q
      by (change 1%Q with (inject_Z 1); rewrite <- Zle_Qle; lia).
    lra.
Qed.

Lemma seconds_at_least_one (q : Q) :
  1 <= Qfloor (q * 60 + (1 # 2)) <-> (1 # 120 <= q)%Q.
Proof. rewrite one_le_Qfloor. split; intros H; lra. Qed.

(** X14. The popup and the background check the durations differently.
    With finite positive numbers in both inputs (the focus input not
    333), each with a binary expansion short enough for the product
    [minutes * 60] to be exact, the popup always sends the start request,
    and the background, in Idle, accepts it exactly when each input is at
    least 1/120 minute, the least that rounds to one second; below that it
    answers "Invalid durations." and changes nothing. *)
Theorem durations_accepted_from_half_a_second :
  forall (parseFloat : string -> Popup.number) (a b : string) (qa qb : Q)
         (w : World) (t : Z),
    phase (current w) = IDLE ->
    parseFloat a = Popup.Finite qa ->
    parseFloat b = Popup.Finite qb ->
    shortBinary qa -> shortBinary qb ->
    (0 < qa)%Q -> (0 < qb)%Q ->
    ~ (qa == 333)%Q ->
    exists m : Message,
      Popup.sent (Popup.onStartClick parseFloat IDLE a b) = Some m
      /\ ((1 # 120 <= qa)%Q /\ (1 # 120 <= qb)%Q ->
          evalState (onMessage t m) w = accepted)
      /\ (~ ((1 # 120 <= qa)%Q /\ (1 # 120 <= qb)%Q) ->
          runState (onMessage t m) w = (rejected "Invalid durations.", w)).
Proof.
  intros parseFloat a b qa qb w t Hidle HA HB _ _ Ha Hb Hno.
  assert (Pos : forall q : Q, (0 < q)%Q -> Qle_bool q 0 = false).
  { intros q Hq. destruct (Qle_bool q 0) eqn:E; [|reflexivity].
    apply Qle_bool_iff in E. lra. }
  assert (N : Qeq_bool qa 333 = false).
  { destruct (Qeq_bool qa 333) eqn:E; [|reflexivity].
    apply Qeq_bool_iff in E. contradiction. }
  unfold Popup.onStartClick, Popup.clampMinutes. rewrite HA, HB.
  rewrite (Pos qa Ha), (Pos qb Hb).
  cbn [Popup.is333 Popup.minutesToSeconds]. rewrite N.
  eexists. split; [reflexivity|].
  set (sa := Qfloor (qa * 60 + (1 # 2))).
  set (sb := Qfloor (qb * 60 + (1 # 2))).
  split.
  - intros [Ga Gb]. apply seconds_at_least_one in Ga, Gb.
    fold sa in Ga. fold sb in Gb.
    unfold evalState.
    change {| type := "start";
              config := Some {| durationASeconds := JS.Num sa;
                                durationBSeconds := JS.Num sb |} |}
      with (startWith sa sb).
    now rewrite (start_accepted w t sa sb Hidle Ga Gb).
  - intros Hbad. apply rejection_answer. apply BadDurations; [exact Hidle|].
    destruct (Z_lt_le_dec sa 1) as [La|La].
    + left. right. exists sa. split; [reflexivity | lia].
    + destruct (Z_lt_le_dec sb 1) as [Lb|Lb].
      * right. right. exists sb. split; [reflexivity | lia].
      * exfalso. apply Hbad. split; now apply seconds_at_least_one.
Qed.

Lemma durations_accepted_from_half_a_second_witness :
  shortBinary (1 # 2) /\ shortBinary (1 # 128)
  /\ exists m : Message,
       Popup.sent (Popup.onStartClick parseMore IDLE "0.5" "0.0078125")
       = Some m
       /\ runState (onMessage 1000 m) initialWorld
          = (rejected "Invalid durations.", initialWorld).
Proof.
  assert (Sa : shortBinary (1 # 2)).
  { exists 1, 1%nat. split; [reflexivity|]. split; [lia | reflexivity]. }
  assert (Sb : shortBinary (1 # 128)).
  { exists 1, 7%nat. split; [reflexivity|]. split; [lia | reflexivity]. }
  split; [exact Sa|]. split; [exact Sb|].
  destruct (durations_accepted_from_half_a_second parseMore "0.5"
              "0.0078125" (1 # 2) (1 # 128) initialWorld 1000 eq_refl
              eq_refl eq_refl Sa Sb
              ltac:(reflexivity) ltac:(reflexivity)
              ltac:(intros H; discriminate H))
    as (m & Hm & _ & Bad).
  exists m. split; [exact Hm|].
  apply Bad. intros [_ H]. revert H. unfold Qle. cbn. lia.
Defined.

(** * More properties of the iOS view model *)

Lemma ios_max_ge (x y : Q) : (x <= IOS.max x y)%Q.
Proof.
  unfold IOS.max. destruct (Qle_bool x y) eqn:E.
  - now apply Qle_bool_iff.
  - apply Qle_refl.
Qed.

Lemma ios_schedule_keeps (now : Q) (p : IOS.Phase) (m : IOS.TimerViewModel) :
  IOS.state (IOS.scheduleCompletionNotification now p m) = IOS.state m
  /\ IOS.config (IOS.scheduleCompletionNotification now p m) = IOS.config m
  /\ IOS.savedState (IOS.scheduleCompletionNotification now p m)
     = IOS.savedState m
  /\ IOS.savedConfig (IOS.scheduleCompletionNotification now p m)
     = IOS.savedConfig m.
Proof. destruct p; repeat split; reflexivity. Qed.

Lemma ios_sound_schedule (now : Q) (p : IOS.Phase) (m : IOS.TimerViewModel) :
  IOSApp.sound m -> IOSApp.sound (IOS.scheduleCompletionNotification now p m).
Proof.
  destruct (ios_schedule_keeps now p m) as (S & C & SS & SC).
  unfold IOSApp.sound, IOSApp.savedOk. rewrite S, C, SS, SC. auto.
Qed.

Lemma ios_sound_persist (s : IOS.State) (msg : string)
    (m : IOS.TimerViewModel) :
  IOSApp.fieldsOk s ->
  IOSApp.configOk (IOS.config m) ->
  IOSApp.sound (IOS.persist (IOS.setState s msg m)).
Proof.
  intros F C. split; [exact F|]. split; [exact C|]. split.
  - left. reflexivity.
  - cbn. intros c E. injection E as <-. exact C.
Qed.

Lemma ios_sound_launch (now : Q) : IOSApp.sound (IOS.init now None None).
Proof.
  split; [split; reflexivity|].
  split; [unfold IOSApp.configOk; cbn; lia|]. split.
  - right. split; reflexivity.
  - cbn. discriminate.
Qed.

Lemma ios_handleCompletion_sound (now : Q) (m : IOS.TimerViewModel) :
  IOSApp.sound m -> IOSApp.sound (IOS.handleCompletion now m).
Proof.
  intros H. pose proof H as (F & C & _). unfold IOS.handleCompletion.
  unfold IOSApp.fieldsOk in F.
  destruct (IOS.phase (IOS.state m)); try exact H.
  - apply ios_sound_schedule, ios_sound_persist; [|exact C].
    destruct F as [_ ->]. split; reflexivity.
  - apply ios_sound_schedule, ios_sound_persist; [|exact C].
    split; reflexivity.
Qed.

Lemma ios_resumeIfNeeded_sound (now : Q) (m : IOS.TimerViewModel) :
  IOSApp.sound m -> IOSApp.sound (IOS.resumeIfNeeded now m).
Proof.
  intros H. unfold IOS.resumeIfNeeded.
  destruct (IOS.phase (IOS.state m)); try exact H;
    destruct (IOS.endDate (IOS.state m)) as [e|]; try exact H;
    destruct (Qle_bool e now); try exact H;
    now apply ios_handleCompletion_sound.
Qed.

Lemma ios_tick_sound (now : Q) (m : IOS.TimerViewModel) :
  IOSApp.sound m -> IOSApp.sound (IOS.tick now m).
Proof.
  intros H. unfold IOS.tick.
  destruct (IOS.phase (IOS.state m)); try exact H;
    destruct (IOS.endDate (IOS.state m)) as [e|]; try exact H;
    destruct (Qle_bool _ 0); try exact H;
    now apply ios_handleCompletion_sound.
Qed.

Lemma ios_start_sound (now : Q) (m : IOS.TimerViewModel) :
  IOSApp.sound m -> IOSApp.sound (IOS.start now m).
Proof.
  intros H. pose proof H as (_ & C & _). unfold IOS.start.
  destruct (IOS.phase (IOS.state m)); try exact H.
  destruct ((0 <? _) && (0 <? _)); [|exact H].
  apply ios_sound_schedule, ios_sound_persist; [|exact C].
  split; [eexists|]; reflexivity.
Qed.

Lemma ios_confirm_sound (now : Q) (m : IOS.TimerViewModel) :
  IOSApp.sound m -> IOSApp.sound (IOS.confirmStartBreak now m).
Proof.
  intros H. pose proof H as (_ & C & _). unfold IOS.confirmStartBreak.
  destruct (IOS.phase (IOS.state m)); try exact H.
  apply ios_sound_schedule, ios_sound_persist; [|exact C].
  split; [eexists|]; reflexivity.
Qed.

Lemma ios_pauseOrResume_sound (now : Q) (m : IOS.TimerViewModel) :
  IOSApp.sound m -> IOSApp.sound (IOS.pauseOrResume now m).
Proof.
  intros H. pose proof H as (F & C & _). unfold IOS.pauseOrResume.
  unfold IOSApp.fieldsOk in F.
  destruct (IOS.phase (IOS.state m)); try exact H.
  1,2: destruct (IOS.endDate (IOS.state m)) as [e|]; [|exact H];
    apply ios_sound_persist; [|exact C];
    (split; [|reflexivity]); eexists; split;
    [reflexivity | apply ios_max_ge].
  all: destruct (IOS.remainingSeconds (IOS.state m)) as [r|]; [|exact H];
    apply ios_sound_schedule, ios_sound_persist; [|exact C];
    (split; [eexists|]; reflexivity).
Qed.

Lemma ios_sound_handle (ev : IOSApp.Event) (m : IOS.TimerViewModel) :
  IOSApp.sound m -> IOSApp.sound (IOSApp.handle ev m).
Proof.
  intros H. destruct ev as [now|now| |now|up|up|now]; cbn [IOSApp.handle].
  - destruct (IOSApp.buttonDisabled _); [exact H|].
    unfold IOSApp.mainButton.
    destruct (IOS.phase (IOS.state m));
      auto using ios_start_sound, ios_confirm_sound.
  - destruct (IOSApp.pauseDisabled _); [exact H|].
    now apply ios_pauseOrResume_sound.
  - destruct H as (_ & C & _). unfold IOS.cancel.
    apply ios_sound_persist; [split; reflexivity | exact C].
  - now apply ios_tick_sound.
  - destruct H as (F & [[? ?] [? ?]] & S).
    split; [exact F|]. split; [|exact S]. split; [|cbn; lia].
    cbn [IOSApp.setConfig IOS.config IOS.focusMinutes].
    unfold IOSApp.stepped. destruct up.
    + destruct (Z.ltb_spec (IOS.focusMinutes (IOS.config m)) 240); lia.
    + destruct (Z.ltb_spec 1 (IOS.focusMinutes (IOS.config m))); lia.
  - destruct H as (F & [[? ?] [? ?]] & S).
    split; [exact F|]. split; [|exact S]. split; [cbn; lia|].
    cbn [IOSApp.setConfig IOS.config IOS.breakMinutes].
    unfold IOSApp.stepped. destruct up.
    + destruct (Z.ltb_spec (IOS.breakMinutes (IOS.config m)) 120); lia.
    + destruct (Z.ltb_spec 1 (IOS.breakMinutes (IOS.config m))); lia.
  - unfold IOS.init. apply ios_resumeIfNeeded_sound.
    destruct H as (F & C & [S SC]).
    assert (CC : IOSApp.configOk
                   match IOS.savedConfig m with
                   | Some c => c
                   | None => IOS.defaultConfig
                   end).
    { destruct (IOS.savedConfig m) as [c|]; [now apply SC|].
      unfold IOSApp.configOk; cbn; lia. }
    split; [|split; [exact CC|split; [|exact SC]]]; cbn.
    + destruct S as [->|[-> _]]; [exact F | split; reflexivity].
    + destruct S as [S|[S _]]; rewrite S; [left | right]; auto.
Qed.

Lemma ios_reachable_sound (m : IOS.TimerViewModel) :
  IOSApp.reachable m -> IOSApp.sound m.
Proof.
  induction 1 as [now|ev m Hm IH].
  - apply ios_sound_launch.
  - now apply ios_sound_handle.
Qed.

(** ** Fields, saved values and the relaunch *)

(** X15. In every view model reached from a first launch by taps, stepper
    presses, timer ticks and relaunches: while a phase runs [endDate] is
    set and [remainingSeconds] is not; while it is paused
    [remainingSeconds] is set to at least one second and [endDate] is not;
    in [idle] and [waitingForConfirm] neither is set; and the configured
    minutes stay within the ranges of the steppers. *)
Theorem ios_fields_fit_phase :
  forall m : IOS.TimerViewModel,
    IOSApp.reachable m ->
    let s := IOS.state m in
    (IOSApp.running (IOS.phase s) = true ->
       (exists e : Q, IOS.endDate s = Some e)
       /\ IOS.remainingSeconds s = None)
    /\ (iosPaused (IOS.phase s) = true ->
        (exists r : Q, IOS.remainingSeconds s = Some r /\ (1 <= r)%Q)
        /\ IOS.endDate s = None)
    /\ (IOS.phase s = IOS.idle \/ IOS.phase s = IOS.waitingForConfirm ->
        IOS.endDate s = None /\ IOS.remainingSeconds s = None)
    /\ 1 <= IOS.focusMinutes (IOS.config m) <= 240
    /\ 1 <= IOS.breakMinutes (IOS.config m) <= 120.
Proof.
  intros m Hm s. destruct (ios_reachable_sound m Hm) as (F & [C1 C2] & _).
  fold s in F. unfold IOSApp.fieldsOk in F.
  split; [|split; [|split; [|split]]].
  - intros H. destruct (IOS.phase s); try discriminate; exact F.
  - intros H. destruct (IOS.phase s); try discriminate; exact F.
  - intros [H|H]; rewrite H in F; exact F.
  - exact C1.
  - exact C2.
Qed.

Lemma ios_reachable_focus : IOSApp.reachable iosFocusModel.
Proof. apply IOSApp.reachable_handle, IOSApp.reachable_launch. Defined.

Lemma ios_fields_fit_phase_witness :
  IOSApp.reachable iosFocusModel
  /\ IOS.remainingSeconds (IOS.state iosFocusModel) = None.
Proof.
  split; [exact ios_reachable_focus|].
  exact (proj2 (proj1 (ios_fields_fit_phase iosFocusModel ios_reachable_focus)
                  eq_refl)).
Defined.

Lemma ios_resumeIfNeeded_state (now : Q) (m m' : IOS.TimerViewModel) :
  IOS.state m = IOS.state m' ->
  IOS.state (IOS.resumeIfNeeded now m) = IOS.state (IOS.resumeIfNeeded now m').
Proof.
  destruct m as [c [p e r] msg sc ss rq], m' as [c' s' msg' sc' ss' rq'].
  cbn. intros <-. unfold IOS.resumeIfNeeded, IOS.handleCompletion. cbn.
  destruct p, e as [e|]; try reflexivity;
    destruct (Qle_bool e now); reflexivity.
Qed.

(** X16. Nothing is lost when the app is closed.  In every view model
    reached from a first launch the saved state is the state held (or
    nothing was saved yet and the state is the default one); so opening the
    app again at [now] gives the state the launch check gives on the model
    as it was: completed if its end has passed, and otherwise the same
    state. *)
Theorem ios_relaunch_keeps_the_state :
  forall (m : IOS.TimerViewModel) (now : Q),
    IOSApp.reachable m ->
    (IOS.savedState m = Some (IOS.state m)
     \/ IOS.savedState m = None /\ IOS.state m = IOS.defaultState)
    /\ IOS.state (IOSApp.handle (IOSApp.Relaunch now) m)
       = IOS.state (IOS.resumeIfNeeded now m)
    /\ (IOSApp.running (IOS.phase (IOS.state m)) = false ->
        IOS.state (IOSApp.handle (IOSApp.Relaunch now) m) = IOS.state m)
    /\ (forall e : Q,
           IOS.endDate (IOS.state m) = Some e -> (now < e)%Q ->
           IOS.state (IOSApp.handle (IOSApp.Relaunch now) m) = IOS.state m).
Proof.
  intros m now Hm. destruct (ios_reachable_sound m Hm) as (_ & _ & [S _]).
  assert (R : IOS.state (IOSApp.handle (IOSApp.Relaunch now) m)
              = IOS.state (IOS.resumeIfNeeded now m)).
  { cbn [IOSApp.handle]. unfold IOS.init.
    apply ios_resumeIfNeeded_state. cbn.
    destruct S as [->|[-> ->]]; reflexivity. }
  split; [exact S|]. split; [exact R|]. rewrite R. split.
  - intros Hr. unfold IOS.resumeIfNeeded.
    destruct (IOS.phase (IOS.state m)); try discriminate; reflexivity.
  - intros e He Hlt. unfold IOS.resumeIfNeeded. rewrite He.
    destruct (Qle_bool e now) eqn:E.
    + apply Qle_bool_iff in E. lra.
    + destruct (IOS.phase (IOS.state m)); reflexivity.
Qed.

Lemma ios_relaunch_keeps_the_state_witness :
  IOSApp.reachable iosFocusModel
  /\ IOS.state (IOSApp.handle (IOSApp.Relaunch 600) iosFocusModel)
     = IOS.state iosFocusModel
  /\ IOS.phase (IOS.state (IOSApp.handle (IOSApp.Relaunch 1500) iosFocusModel))
     = IOS.waitingForConfirm.
Proof.
  split; [exact ios_reachable_focus|].
  destruct (ios_relaunch_keeps_the_state iosFocusModel 600 ios_reachable_focus)
    as (_ & _ & _ & K).
  split; [|reflexivity].
  apply (K (0 + inject_Z (25 * 60))%Q eq_refl). reflexivity.
Defined.

(** ** Completion on iOS *)

(** X17. The view model completes a phase exactly when it is due.  For a
    running phase with end [e], the launch check and the timer tick at
    [now] leave the model as it is while [now < e]; from [e] on they store
    [waitingForConfirm] (after focus) or the default state (after break),
    save it, and add one immediate notification request. *)
Theorem ios_completes_when_due :
  forall (m : IOS.TimerViewModel) (e now : Q) (r : IOS.Reentry),
    IOSApp.running (IOS.phase (IOS.state m)) = true ->
    IOS.endDate (IOS.state m) = Some e ->
    ((now < e)%Q -> IOS.reenter r now m = m)
    /\ ((e <= now)%Q ->
        IOS.reenter r now m = IOS.handleCompletion now m
        /\ IOS.state (IOS.reenter r now m)
           = match IOS.phase (IOS.state m) with
             | IOS.runningFocus =>
                 {| IOS.phase := IOS.waitingForConfirm;
                    IOS.endDate := None;
                    IOS.remainingSeconds :=
                      IOS.remainingSeconds (IOS.state m) |}
             | _ => IOS.defaultState
             end
        /\ IOS.savedState (IOS.reenter r now m)
           = Some (IOS.state (IOS.reenter r now m))
        /\ exists q : IOS.Request,
             IOS.requests (IOS.reenter r now m) = IOS.requests m ++ [q]
             /\ IOS.trigger q = None).
Proof.
  intros m e now r Hrun He.
  assert (Tick : Qle_bool (IOS.max 0 (e - now)) 0 = Qle_bool e now).
  { unfold IOS.max. destruct (Qle_bool 0 (e - now)) eqn:A.
    - apply Qle_bool_iff in A.
      destruct (Qle_bool (e - now) 0) eqn:B, (Qle_bool e now) eqn:C;
        try reflexivity.
      + apply Qle_bool_iff in B.
        assert (e <= now)%Q by lra. apply Qle_bool_iff in H. congruence.
      + apply Qle_bool_iff in C.
        assert (e - now <= 0)%Q by lra. apply Qle_bool_iff in H. congruence.
    - destruct (Qle_bool e now) eqn:C; [reflexivity|].
      assert (0 <= e - now)%Q.
      { destruct (Qlt_le_dec now e) as [L|L]; [lra|].
        apply Qle_bool_iff in L. congruence. }
      apply Qle_bool_iff in H. congruence. }
  assert (Same : IOS.reenter r now m
                 = if Qle_bool e now then IOS.handleCompletion now m else m).
  { destruct r; unfold IOS.reenter, IOS.resumeIfNeeded, IOS.tick;
      rewrite He, ?Tick;
      destruct (IOS.phase (IOS.state m)); try discriminate; reflexivity. }
  rewrite Same. split.
  - intros Hlt. destruct (Qle_bool e now) eqn:E; [|reflexivity].
    apply Qle_bool_iff in E. lra.
  - intros Hle. apply Qle_bool_iff in Hle. rewrite Hle.
    split; [reflexivity|]. unfold IOS.handleCompletion.
    destruct (IOS.phase (IOS.state m)); try discriminate;
      repeat split; eexists; split; reflexivity.
Qed.

Lemma ios_completes_when_due_witness :
  IOS.reenter IOS.Tick 1499 iosFocusModel = iosFocusModel
  /\ IOS.phase (IOS.state (IOS.reenter IOS.Tick 1500 iosFocusModel))
     = IOS.waitingForConfirm.
Proof.
  destruct (ios_completes_when_due iosFocusModel
              (0 + inject_Z (25 * 60))%Q 1499 IOS.Tick eq_refl eq_refl)
    as [Early _].
  destruct (ios_completes_when_due iosFocusModel
              (0 + inject_Z (25 * 60))%Q 1500 IOS.Tick eq_refl eq_refl)
    as [_ Due].
  split.
  - apply Early. reflexivity.
  - destruct (Due ltac:(apply Qle_bool_iff; reflexivity)) as (_ & S & _).
    rewrite S. reflexivity.
Defined.

(** ** Pause and resume on iOS *)

(** X18. On iOS the pause keeps the exact remaining time.  For a running
    phase with end [e], paused at [t1] with at least one second left and
    resumed at [t2], the phase is restored and the new end is the old end
    shifted by exactly the length of the pause; with less than a second
    left (or none) the remaining time is raised to one second and the new
    end is one second after the resume.  The three instants are on the
    grid of [2^-23] s and the new end is within [2^30] s of the reference
    date, where the difference and the sum of [pauseOrResume] are
    exact. *)
Theorem ios_pause_keeps_exact_time :
  forall (m : IOS.TimerViewModel) (e t1 t2 : Q),
    IOSApp.running (IOS.phase (IOS.state m)) = true ->
    IOS.endDate (IOS.state m) = Some e ->
    onGrid e -> onGrid t1 -> onGrid t2 ->
    (t2 + 1 <= 1073741824)%Q ->
    (e + (t2 - t1) <= 1073741824)%Q ->
    let m1 := IOS.pauseOrResume t1 m in
    let m2 := IOS.pauseOrResume t2 m1 in
    iosPaused (IOS.phase (IOS.state m1)) = true
    /\ IOS.phase (IOS.state m2) = IOS.phase (IOS.state m)
    /\ IOS.remainingSeconds (IOS.state m2) = None
    /\ ((1 <= e - t1)%Q ->
        exists e' : Q,
          IOS.endDate (IOS.state m2) = Some e'
          /\ (e' == e + (t2 - t1))%Q)
    /\ ((e - t1 < 1)%Q ->
        IOS.remainingSeconds (IOS.state m1) = Some 1%Q
        /\ IOS.endDate (IOS.state m2) = Some (t2 + 1)%Q).
Proof.
  intros [c [p en r] msg sc ss rq] e t1 t2 Hrun He _ _ _ _ _ m1 m2.
  subst m2 m1.
  cbn in Hrun, He. subst en.
  destruct p; try discriminate; unfold IOS.pauseOrResume; cbn.
  all: split; [reflexivity|]; split; [reflexivity|]; split; [reflexivity|].
  all: unfold IOS.max; split; intros H.
  all: try (assert (B : Qle_bool 1 (e - t1) = true)
              by (now apply Qle_bool_iff);
            rewrite B; eexists; split; [reflexivity | lra]).
  all: assert (B : Qle_bool 1 (e - t1) = false)
         by (destruct (Qle_bool 1 (e - t1)) eqn:B; [|reflexivity];
             apply Qle_bool_iff in B; lra);
    rewrite B; split; reflexivity.
Qed.

Lemma ios_pause_keeps_exact_time_witness :
  onGrid 100 /\ onGrid 700
  /\ exists e' : Q,
       IOS.endDate
         (IOS.state
            (IOS.pauseOrResume 700 (IOS.pauseOrResume 100 iosFocusModel)))
       = Some e'
       /\ (e' == 2100)%Q.
Proof.
  assert (G1 : onGrid 100)
    by (exists (100 * 8388608); split; [split; lia | reflexivity]).
  assert (G2 : onGrid 700)
    by (exists (700 * 8388608); split; [split; lia | reflexivity]).
  assert (Ge : onGrid (0 + inject_Z (25 * 60)))
    by (exists (1500 * 8388608); split; [split; lia | reflexivity]).
  split; [exact G1|]. split; [exact G2|].
  destruct (ios_pause_keeps_exact_time iosFocusModel
              (0 + inject_Z (25 * 60))%Q 100 700 eq_refl eq_refl
              Ge G1 G2 ltac:(apply Qle_bool_iff; reflexivity)
              ltac:(apply Qle_bool_iff; reflexivity))
    as (_ & _ & _ & Exact & _).
  destruct (Exact ltac:(apply Qle_bool_iff; reflexivity)) as (e' & E & Q).
  exists e'. split; [exact E|]. rewrite Q. reflexivity.
Defined.

(** ** The buttons of the screen *)

(** X19. On the iOS screen every enabled button acts and every disabled
    one could do nothing.  In every view model reached from a first
    launch: in [idle] the main button starts the focus phase, ending
    [focusMinutes * 60] seconds later; in [waitingForConfirm] it starts the
    break; in a running phase the pause button pauses and in a paused one
    it resumes; and the model's own guards agree with the disabled
    buttons: [start] and [confirmStartBreak] change nothing in the running
    and paused phases, [pauseOrResume] changes nothing in [idle] and
    [waitingForConfirm]. *)
Theorem ios_enabled_buttons_act :
  forall (m : IOS.TimerViewModel) (now : Q),
    IOSApp.reachable m ->
    let p := IOS.phase (IOS.state m) in
    (p = IOS.idle ->
       IOS.state (IOSApp.handle (IOSApp.TapMain now) m)
       = {| IOS.phase := IOS.runningFocus;
            IOS.endDate :=
              Some (now + inject_Z (IOS.focusMinutes (IOS.config m) * 60))%Q;
            IOS.remainingSeconds := None |})
    /\ (p = IOS.waitingForConfirm ->
        IOS.state (IOSApp.handle (IOSApp.TapMain now) m)
        = {| IOS.phase := IOS.runningBreak;
             IOS.endDate :=
               Some (now + inject_Z (IOS.breakMinutes (IOS.config m) * 60))%Q;
             IOS.remainingSeconds := None |})
    /\ (IOSApp.running p = true ->
        iosPaused (IOS.phase (IOS.state (IOSApp.handle (IOSApp.TapPause now) m)))
        = true)
    /\ (iosPaused p = true ->
        IOSApp.running
          (IOS.phase (IOS.state (IOSApp.handle (IOSApp.TapPause now) m)))
        = true)
    /\ (IOSApp.buttonDisabled p = true ->
        IOS.start now m = m /\ IOS.confirmStartBreak now m = m)
    /\ (IOSApp.pauseDisabled p = true -> IOS.pauseOrResume now m = m).
Proof.
  intros m now Hm p.
  destruct (ios_reachable_sound m Hm) as (F & [[C1 _] [C2 _]] & _).
  unfold IOSApp.fieldsOk in F. fold p in F.
  assert (G : (0 <? IOS.focusMinutes (IOS.config m))
              && (0 <? IOS.breakMinutes (IOS.config m)) = true).
  { apply andb_true_intro. split; apply Z.ltb_lt; lia. }
  split; [|split; [|split; [|split; [|split]]]].
  - intros E. cbn [IOSApp.handle]. fold p. rewrite E. cbn.
    unfold IOSApp.mainButton, IOS.start. fold p. rewrite E, G. reflexivity.
  - intros E. cbn [IOSApp.handle]. fold p. rewrite E. cbn.
    unfold IOSApp.mainButton, IOS.confirmStartBreak. fold p. rewrite E.
    reflexivity.
  - intros E. cbn [IOSApp.handle]. fold p. unfold IOS.pauseOrResume. fold p.
    destruct p; try discriminate; cbn;
      destruct F as [[e ->] _]; reflexivity.
  - intros E. cbn [IOSApp.handle]. fold p. unfold IOS.pauseOrResume. fold p.
    destruct p; try discriminate; cbn;
      destruct F as [(r & -> & _) _]; reflexivity.
  - intros E. unfold IOS.start, IOS.confirmStartBreak. fold p.
    destruct p; try discriminate; split; reflexivity.
  - intros E. unfold IOS.pauseOrResume. fold p.
    destruct p; try discriminate; reflexivity.
Qed.

Lemma ios_enabled_buttons_act_witness :
  IOSApp.reachable iosFocusModel
  /\ iosPaused
       (IOS.phase
          (IOS.state (IOSApp.handle (IOSApp.TapPause 100) iosFocusModel)))
     = true.
Proof.
  split; [exact ios_reachable_focus|].
  exact (proj1 (proj2 (proj2 (ios_enabled_buttons_act iosFocusModel 100
                                ios_reachable_focus)))
           eq_refl).
Defined.
